(** * Alert_Management_POC: the throttled dispatcher and the page script of app.py

    A shallow embedding of [src/app.py].  The script is a Streamlit page: it
    samples four metrics through psutil, compares each with [THRESHOLD], asks
    the completion service for advice through [get_ai_solution] when a metric
    is above it, and forwards the chat box to the same dispatcher,
    [send_request_with_throttling].

    What lies outside the script is a boundary of the model:
    - the completion service ([model.start_chat], [chat_session.send_message])
      answers the k-th request it receives, given the history of the session
      the request is sent on;
    - psutil answers with the host's readings at the current (logical) time,
      which [time.sleep] advances;
    - Streamlit's display calls, [print] and [time.sleep] are recorded as
      events, in program order; the calls into psutil and Streamlit are taken
      to return;
    - the interpreter leaves the dispatcher a finite depth of nested calls,
      [fuel]; a call beyond it raises RecursionError.
    Python floats are IEEE 754 binary64 values ([spec_float] with precision 53),
    Python ints are [Z], Python strings are [string]. *)

From Stdlib Require Import String Ascii List ZArith QArith Lia Bool.
From Stdlib Require Import DecimalString SpecFloat.
Import ListNotations.
Close Scope Q_scope.
Open Scope string_scope.

(* ================================================================== *)
(** * Python strings *)

Module PyStr.

(** [needle in hay]: some suffix of [hay] starts with [needle]. *)
Fixpoint str_in (needle hay : string) : bool :=
  if prefix needle hay then true
  else match hay with
       | EmptyString => false
       | String _ rest => str_in needle rest
       end.

(** The number of positions of [hay] at which [needle] starts. *)
Fixpoint occurrences (needle hay : string) : nat :=
  (if prefix needle hay then 1 else 0) +
  match hay with
  | EmptyString => 0
  | String _ rest => occurrences needle rest
  end.

(** [str(z)] for an int. *)
Definition str_int (z : Z) : string := NilZero.string_of_int (Z.to_int z).

Fixpoint zeros (n : nat) : string :=
  match n with
  | O => ""
  | S k => String "0" (zeros k)
  end.

End PyStr.

(* ================================================================== *)
(** * Python floats (binary64) *)

Module Float64.
Import PyStr.
Local Open Scope Z_scope.

Definition prec : Z := 53.
Definition emax : Z := 1024.

(** The real number a finite float stands for; [None] for nan and the
    infinities. *)
Definition float_value (x : spec_float) : option Q :=
  match x with
  | S754_zero _ => Some 0%Q
  | S754_finite s m e =>
      let sm := if s then Zneg m else Zpos m in
      Some (if 0 <=? e then inject_Z (sm * 2 ^ e)
            else Qmake sm (Z.to_pos (2 ^ (- e))))
  | _ => None
  end.

(** [a / b] on ints, for a positive divisor: the quotient rounded to the
    nearest float (ties to even); [None] stands for Python's OverflowError
    (the quotient is too large for a float). *)
Definition int_truediv (a : Z) (b : positive) : option spec_float :=
  let q := match a with
           | Z0 => S754_zero false
           | Zpos p => SFdiv prec emax (S754_finite false p 0) (S754_finite false b 0)
           | Zneg p => SFdiv prec emax (S754_finite true p 0) (S754_finite false b 0)
           end in
  match q with
  | S754_infinity _ => None
  | _ => Some q
  end.

(** [x > z] for a float [x] and an int [z]: Python compares the two exactly. *)
Definition float_gt_int (x : spec_float) (z : Z) : bool :=
  match x with
  | S754_nan => false
  | S754_infinity s => negb s
  | S754_zero _ => z <? 0
  | S754_finite s m e =>
      let sm := if s then Zneg m else Zpos m in
      if 0 <=? e then z <? sm * 2 ^ e else z * 2 ^ (- e) <? sm
  end.

Definition sign_prefix (s : bool) : string := if s then "-" else "".

(** The integer nearest to [num / den] ([0 <= num], [0 < den]), ties to even. *)
Definition round_half_even (num den : Z) : Z :=
  let q := num / den in
  match 2 * (num mod den) ?= den with
  | Lt => q
  | Gt => q + 1
  | Eq => if Z.even q then q else q + 1
  end.

(** [format(x, ".2f")]: the exact value rounded to two decimals. *)
Definition format_2f (x : spec_float) : string :=
  match x with
  | S754_nan => "nan"
  | S754_infinity s => sign_prefix s ++ "inf"
  | S754_zero s => sign_prefix s ++ "0.00"
  | S754_finite s m e =>
      let n := if 0 <=? e then Zpos m * 2 ^ e * 100
               else round_half_even (Zpos m * 100) (2 ^ (- e)) in
      let frac := n mod 100 in
      sign_prefix s ++ str_int (n / 100) ++ "." ++
      (if frac <? 10 then "0" else "") ++ str_int frac
  end.

(** [a * 2^ea] against [c * 10^ec], exactly. *)
Definition compare_scaled (a ea c ec : Z) : comparison :=
  a * 2 ^ Z.max ea 0 * 10 ^ Z.max (- ec) 0 ?= c * 10 ^ Z.max ec 0 * 2 ^ Z.max (- ea) 0.

(** The decimal [c * 10^ec] reads back as the float [m * 2^e]: it lies within
    half a gap of it on either side, the ends included when [m] is even. *)
Definition reads_back (m : positive) (e : Z) (c ec : Z) : bool :=
  let below := if (Zpos m =? 2 ^ 52) && (-1074 <? e) then 1 else 2 in
  let closed := Z.even (Zpos m) in
  match compare_scaled (4 * Zpos m - below) (e - 2) c ec with
  | Lt => true
  | Eq => closed
  | Gt => false
  end &&
  match compare_scaled (4 * Zpos m + 2) (e - 2) c ec with
  | Gt => true
  | Eq => closed
  | Lt => false
  end.

Fixpoint leading_zeros (fuel : nat) (num den : Z) : Z :=
  match fuel with
  | O => 0
  | S k => if den <=? num * 10 then 0 else 1 + leading_zeros k (num * 10) den
  end.

(** The [p] with [10^(p-1) <= m * 2^e < 10^p]. *)
Definition decimal_point (m : positive) (e : Z) : Z :=
  let ip := if 0 <=? e then Zpos m * 2 ^ e else Zpos m / 2 ^ (- e) in
  if 0 <? ip then Z.of_nat (String.length (str_int ip))
  else - leading_zeros 400 (Zpos m) (2 ^ (- e)).

(** The shortest digit string that reads back as [m * 2^e], searched from [n]
    digits upwards: [(c, n)] stands for the [n]-digit number [c]. *)
Fixpoint shortest_digits (fuel : nat) (n : Z) (m : positive) (e p : Z) : Z * Z :=
  let k := p - n in
  let sn := Zpos m * 2 ^ Z.max e 0 * 10 ^ Z.max (- k) 0 in
  let sd := 2 ^ Z.max (- e) 0 * 10 ^ Z.max k 0 in
  let lo := sn / sd in
  let hi := lo + 1 in
  let nearer := round_half_even sn sd in
  let oklo := reads_back m e lo k in
  let okhi := reads_back m e hi k in
  if oklo && okhi then (nearer, n)
  else if oklo then (lo, n)
  else if okhi then (hi, n)
  else match fuel with
       | O => (nearer, n)
       | S fuel' => shortest_digits fuel' (n + 1) m e p
       end.

(** [repr(x)], which is also [str(x)] and [format(x, "")]: the shortest
    decimal that reads back as [x], in positional notation when the decimal
    point falls within the digits or close to them, in exponent notation
    otherwise. *)
Definition float_repr (x : spec_float) : string :=
  match x with
  | S754_nan => "nan"
  | S754_infinity s => sign_prefix s ++ "inf"
  | S754_zero s => sign_prefix s ++ "0.0"
  | S754_finite s m e =>
      let p0 := decimal_point m e in
      let '(c, n) := shortest_digits 16 1 m e p0 in
      let '(digits, p) := if c =? 10 ^ n then ("1", p0 + 1) else (str_int c, p0) in
      let len := String.length digits in
      sign_prefix s ++
      (if (p <=? -4) || (16 <? p) then
         substring 0 1 digits ++
         (if (1 <? len)%nat then "." ++ substring 1 (len - 1) digits else "") ++
         "e" ++ (if p - 1 <? 0 then "-" else "+") ++
         (if Z.abs (p - 1) <? 10 then "0" else "") ++ str_int (Z.abs (p - 1))
       else if p <=? 0 then "0." ++ zeros (Z.to_nat (- p)) ++ digits
       else if (len <=? Z.to_nat p)%nat then digits ++ zeros (Z.to_nat p - len) ++ ".0"
       else substring 0 (Z.to_nat p) digits ++ "." ++
            substring (Z.to_nat p) (len - Z.to_nat p) digits)
  end.

End Float64.

(* ================================================================== *)
(** * The boundary: exceptions, the completion service, the host, events *)

Import PyStr Float64.

(** A raised exception: its class and what [str(e)] returns. *)
Record exn : Type := mk_exn { exn_class : string; exn_str : string }.

Inductive role : Type := User | Model.

(** One turn of a conversation; a chat session's history is a list of turns. *)
Definition turn : Type := (role * string)%type.
Definition history : Type := list turn.

(** What the completion service does with one request. *)
Inductive reply : Type :=
| Reply (text : string)
| Failure (e : exn).

(** The completion service: its answer to the [k]-th request it receives
    (counting from 0), given the history of the session the request is sent on
    and the prompt. *)
Definition completion_service : Type := nat -> history -> string -> reply.

(** psutil's named tuples, with the fields the script reads. *)
Record snetio : Type := mk_snetio { bytes_sent : Z; bytes_recv : Z }.
Record sdiskio : Type := mk_sdiskio { read_bytes : Z; write_bytes : Z }.

(** The host's readings at each time. *)
Record metrics_source : Type := mk_metrics_source {
  cpu_percent : nat -> spec_float;
  virtual_memory_percent : nat -> spec_float;
  net_io_counters : nat -> snetio;
  disk_io_counters : nat -> sdiskio
}.

Inductive widget : Type :=
| StTitle | StWrite | StWarning | StSuccess | StSubheader | StTextInput | StMarkdown.

(** What the script does to the outside, in program order. *)
Inductive event : Type :=
| EvStartChat (h : history)
| EvSendMessage (h : history) (prompt : string)
| EvPrint (line : string)
| EvSleep (seconds : nat)
| EvSt (w : widget) (text : string).

(** The state the script runs in: the chat sessions created so far (a session
    is referred to by its position), the number of requests the completion
    service has received, and the time. *)
Record world : Type := mk_world {
  sessions : list history;
  calls : nat;
  clock : nat
}.

(** How a piece of the script ends: with a value or with an exception. *)
Inductive outcome (A : Type) : Type :=
| Returned (a : A)
| Raised (e : exn).
Arguments Returned {A} a.
Arguments Raised {A} e.

(** A piece of the script: from a world to an outcome, the world after it and
    the events it produced. *)
Definition M (A : Type) : Type := world -> outcome A * world * list event.

Definition ret {A : Type} (a : A) : M A := fun w => (Returned a, w, []).

Definition raise {A : Type} (e : exn) : M A := fun w => (Raised e, w, []).

Definition bind {A B : Type} (c : M A) (k : A -> M B) : M B :=
  fun w =>
    match c w with
    | (Returned a, w1, t1) => let '(r, w2, t2) := k a w1 in (r, w2, (t1 ++ t2)%list)
    | (Raised e, w1, t1) => (Raised e, w1, t1)
    end.

(** [try: body / except Exception as e: handler e]. *)
Definition try_except {A : Type} (body : M A) (handler : exn -> M A) : M A :=
  fun w =>
    match body w with
    | (Raised e, w1, t1) => let '(r, w2, t2) := handler e w1 in (r, w2, (t1 ++ t2)%list)
    | done => done
    end.

Definition emit (ev : event) : M unit := fun w => (Returned tt, w, [ev]).

Declare Scope prog_scope.
Delimit Scope prog_scope with prog.
Notation "x <- c1 ;; c2" := (bind c1 (fun x => c2))
  (at level 61, c1 at next level, right associativity) : prog_scope.
Notation "c1 ;; c2" := (bind c1 (fun _ => c2))
  (at level 61, right associativity) : prog_scope.
Open Scope prog_scope.

Definition result_of {A : Type} (x : outcome A * world * list event) : outcome A :=
  fst (fst x).
Definition world_of {A : Type} (x : outcome A * world * list event) : world :=
  snd (fst x).
Definition trace_of {A : Type} (x : outcome A * world * list event) : list event :=
  snd x.

(** The durations of the waits in a trace, and the requests sent in it. *)
Definition sleeps (t : list event) : list nat :=
  flat_map (fun ev => match ev with EvSleep n => [n] | _ => [] end) t.

Definition requests (t : list event) : list (history * string) :=
  flat_map (fun ev => match ev with EvSendMessage h p => [(h, p)] | _ => [] end) t.

Definition print (line : string) : M unit := emit (EvPrint line).

(** [time.sleep(seconds)]. *)
Definition time_sleep (seconds : nat) : M unit :=
  fun w => (Returned tt,
            {| sessions := sessions w; calls := calls w; clock := clock w + seconds |},
            [EvSleep seconds]).

Definition st_title (s : string) : M unit := emit (EvSt StTitle s).
Definition st_write (s : string) : M unit := emit (EvSt StWrite s).
Definition st_warning (s : string) : M unit := emit (EvSt StWarning s).
Definition st_success (s : string) : M unit := emit (EvSt StSuccess s).
Definition st_subheader (s : string) : M unit := emit (EvSt StSubheader s).
Definition st_markdown (s : string) : M unit := emit (EvSt StMarkdown s).

(** [st.text_input(label)]: shows the field and returns what it holds. *)
Definition st_text_input (typed label : string) : M string :=
  fun w => (Returned typed, w, [EvSt StTextInput label]).

Fixpoint replace_nth {A : Type} (n : nat) (a : A) (l : list A) : list A :=
  match l, n with
  | [], _ => []
  | _ :: rest, O => a :: rest
  | x :: rest, S k => x :: replace_nth k a rest
  end.

Definition overflow_error : exn :=
  mk_exn "OverflowError" "integer division result too large for a float".

(** What the interpreter raises at a call when no stack depth is left. *)
Definition recursion_error : exn :=
  mk_exn "RecursionError" "maximum recursion depth exceeded".

(** [a / b] as the script runs it. *)
Definition py_truediv (a : Z) (b : positive) : M spec_float :=
  match int_truediv a b with
  | Some x => ret x
  | None => raise overflow_error
  end.

(** The values [get_ai_solution] formats into its prompt. *)
Inductive pynum : Type :=
| PyInt (z : Z)
| PyFloat (x : spec_float).

(** [format(v, "")], which is what an f-string field without a format
    specifier inserts. *)
Definition py_str (v : pynum) : string :=
  match v with
  | PyInt z => str_int z
  | PyFloat x => float_repr x
  end.

(** Completion stubs: one that fails with [e] on the first [n] requests and
    answers [text] from then on, and one that always fails with [e]. *)
Definition stub_failing_then_ok (n : nat) (e : exn) (text : string) : completion_service :=
  fun k _ _ => if Nat.ltb k n then Failure e else Reply text.

Definition stub_failing (e : exn) : completion_service :=
  fun _ _ _ => Failure e.

(** One that fails with [e1] on the first [n] requests and with [e2] from then
    on. *)
Definition stub_failing_then_failing (n : nat) (e1 e2 : exn) : completion_service :=
  fun k _ _ => if Nat.ltb k n then Failure e1 else Failure e2.

(** A service that answers by repeating the number of turns it was shown
    before the prompt. *)
Definition stub_counting_history : completion_service :=
  fun _ h _ => Reply (str_int (Z.of_nat (List.length h))).

Definition quota_failure : exn :=
  mk_exn "ResourceExhausted" "429 Quota exceeded [reason: RATE_LIMIT_EXCEEDED]".

Definition auth_failure : exn :=
  mk_exn "PermissionDenied" "403 API key not valid".

(** A host whose readings do not change, except for the byte counters, which
    grow by the given amounts per time unit. *)
Definition steady_host (cpu mem : spec_float) (net_rate disk_rate : Z) : metrics_source :=
  {| cpu_percent := fun _ => cpu;
     virtual_memory_percent := fun _ => mem;
     net_io_counters := fun t => mk_snetio 0 (net_rate * Z.of_nat t);
     disk_io_counters := fun t => mk_sdiskio (disk_rate * Z.of_nat t) 0 |}.

(* ================================================================== *)
(** * The script *)

(** The marker looked for in the text of a failure (line 44). *)
Definition RATE_LIMIT_MARKER : string := "RATE_LIMIT_EXCEEDED".

(** [THRESHOLD = 75] (line 63). *)
Definition THRESHOLD : Z := 75.

Definition page_style : string :=
"
    <style>
        /* Fade-in effect for the text box on page load */
        .stTextInput input {
            opacity: 0;
            animation: fadeIn 2s forwards;
        }

        /* Define the fade-in animation */
        @keyframes fadeIn {
            0% { opacity: 0; }
            100% { opacity: 1; }
        }

        /* Keep the text box always visible */
        .stTextInput input:focus {
            opacity: 1;  /* Remain visible when focused */
        }
    </style>
".

(** Line 54: the f-string bound to [prompt] in [get_ai_solution]. *)
Definition advisory_prompt (metric_name : string) (value : pynum) : string :=
  "The " ++ metric_name ++ " usage is " ++ py_str value ++
  "%. Provide step-by-step recommendations on how to resolve high " ++
  metric_name ++ " usage.".

(** The specification's notation for the prompt: a text with [{field}]
    placeholders, each replaced by the field's text.  [key] holds the name being
    read while inside braces. *)
Fixpoint fill_template (fields : string -> string) (key : option string)
    (template : string) : string :=
  match template with
  | EmptyString => ""
  | String c rest =>
      match key with
      | None =>
          if Ascii.eqb c "{" then fill_template fields (Some "") rest
          else String c (fill_template fields None rest)
      | Some k =>
          if Ascii.eqb c "}" then fields k ++ fill_template fields None rest
          else fill_template fields (Some (k ++ String c "")) rest
      end
  end.

(** The specification's [build_prompt(metric_name, value)], as it words it. *)
Definition spec_build_prompt (metric_name : string) (value : pynum) : string :=
  fill_template
    (fun k => if String.eqb k "metric_name" then metric_name
              else if String.eqb k "value" then py_str value
              else "")
    None
    "The {metric_name} usage is {value}%. Provide step-by-step recommendations on how to resolve high {metric_name} usage.".

Section Script.

(** [model], the client configured once at start-up, and [psutil]. *)
Variable model : completion_service.
Variable psutil : metrics_source.

(** [model.start_chat(history=h)]: a new session, which starts from [h]. *)
Definition start_chat (h : history) : M nat :=
  fun w => (Returned (List.length (sessions w)),
            {| sessions := (sessions w ++ [h])%list; calls := calls w; clock := clock w |},
            [EvStartChat h]).

(** [chat_session.send_message(prompt).text]: the request goes out with the
    session's history; an answer is appended to that history with the prompt,
    a failure is raised. *)
Definition send_message (chat_session : nat) (prompt : string) : M string :=
  fun w =>
    match nth_error (sessions w) chat_session with
    | None => (Raised (mk_exn "ReferenceError" "no such chat session"), w, [])
    | Some h =>
        match model (calls w) h prompt with
        | Reply text =>
            (Returned text,
             {| sessions := replace_nth chat_session
                              (h ++ [(User, prompt); (Model, text)])%list (sessions w);
                calls := S (calls w); clock := clock w |},
             [EvSendMessage h prompt])
        | Failure e =>
            (Raised e,
             {| sessions := sessions w; calls := S (calls w); clock := clock w |},
             [EvSendMessage h prompt])
        end
    end.

(** Lines 30-50.  [fuel] is the depth of calls the interpreter has left for
    the dispatcher; the nested call of line 48 uses one unit of it, and a call
    made when none is left raises RecursionError.  That call sits in the
    handler, outside the [try] of the frame that makes it, so the exception
    leaves every frame and reaches the caller. *)
Fixpoint send_request_with_throttling (fuel : nat) (prompt : string) : M string :=
  match fuel with
  | O => raise recursion_error
  | S fuel' =>
      try_except
        (chat_session <- start_chat [] ;;
         response <- send_message chat_session prompt ;;
         ret response)
        (fun e =>
           if str_in RATE_LIMIT_MARKER (exn_str e) then
             print ("Rate limit exceeded: " ++ exn_str e) ;;
             print "Waiting for 1 minute before retrying..." ;;
             time_sleep 60 ;;
             send_request_with_throttling fuel' prompt
           else
             raise e)
  end.

(** Lines 53-57. *)
Definition get_ai_solution (fuel : nat) (metric_name : string) (value : pynum) : M string :=
  let prompt := advisory_prompt metric_name value in
  send_request_with_throttling fuel prompt.

(** [psutil.cpu_percent(interval=...)]: blocks for the interval, then reports. *)
Definition psutil_cpu_percent (interval : nat) : M spec_float :=
  fun w => (Returned (cpu_percent psutil (clock w + interval)),
            {| sessions := sessions w; calls := calls w; clock := clock w + interval |},
            []).

Definition psutil_virtual_memory_percent : M spec_float :=
  fun w => (Returned (virtual_memory_percent psutil (clock w)), w, []).

Definition psutil_net_io_counters : M snetio :=
  fun w => (Returned (net_io_counters psutil (clock w)), w, []).

Definition psutil_disk_io_counters : M sdiskio :=
  fun w => (Returned (disk_io_counters psutil (clock w)), w, []).

(** Lines 65-74. *)
Definition cpu_section (fuel : nat) : M unit :=
  cpu_usage <- psutil_cpu_percent 1 ;;
  st_write ("CPU Usage: " ++ format_2f cpu_usage ++ "%") ;;
  if float_gt_int cpu_usage THRESHOLD then
    st_warning ("CPU usage is high! (" ++ format_2f cpu_usage ++ "%)") ;;
    solution <- get_ai_solution fuel "CPU" (PyFloat cpu_usage) ;;
    st_write "### AI-generated Solution for CPU Usage:" ;;
    st_write solution
  else
    st_success "CPU usage is within normal limits.".

(** Lines 78-87. *)
Definition memory_section (fuel : nat) : M unit :=
  memory_usage <- psutil_virtual_memory_percent ;;
  st_write ("Memory Usage: " ++ format_2f memory_usage ++ "%") ;;
  if float_gt_int memory_usage THRESHOLD then
    st_warning ("Memory usage is high! (" ++ format_2f memory_usage ++ "%)") ;;
    solution <- get_ai_solution fuel "Memory" (PyFloat memory_usage) ;;
    st_write "### AI-generated Solution for Memory Usage:" ;;
    st_write solution
  else
    st_success "Memory usage is within normal limits.".

(** Lines 93-98: the two snapshots and the figure computed from them. *)
Definition sample_network_usage : M spec_float :=
  net_before <- psutil_net_io_counters ;;
  time_sleep 1 ;;
  net_after <- psutil_net_io_counters ;;
  py_truediv ((bytes_recv net_after + bytes_sent net_after)
              - (bytes_recv net_before + bytes_sent net_before))
             (1024 * 1024).

(** Lines 93-106. *)
Definition network_section (fuel : nat) : M unit :=
  network_usage <- sample_network_usage ;;
  st_write ("Network Usage: " ++ format_2f network_usage ++ " MB/s") ;;
  if float_gt_int network_usage THRESHOLD then
    st_warning ("Network usage is high! (" ++ format_2f network_usage ++ " MB/s)") ;;
    solution <- get_ai_solution fuel "Network" (PyFloat network_usage) ;;
    st_write "### AI-generated Solution for Network Usage:" ;;
    st_write solution
  else
    st_success "Network usage is within normal limits.".

(** Lines 112-117. *)
Definition sample_disk_io_usage : M spec_float :=
  disk_before <- psutil_disk_io_counters ;;
  time_sleep 1 ;;
  disk_after <- psutil_disk_io_counters ;;
  py_truediv ((read_bytes disk_after + write_bytes disk_after)
              - (read_bytes disk_before + write_bytes disk_before))
             (1024 * 1024).

(** Lines 112-125. *)
Definition disk_section (fuel : nat) : M unit :=
  disk_io_usage <- sample_disk_io_usage ;;
  st_write ("Disk I/O Usage: " ++ format_2f disk_io_usage ++ " MB/s") ;;
  if float_gt_int disk_io_usage THRESHOLD then
    st_warning ("Disk I/O usage is high! (" ++ format_2f disk_io_usage ++ " MB/s)") ;;
    solution <- get_ai_solution fuel "Disk I/O" (PyFloat disk_io_usage) ;;
    st_write "### AI-generated Solution for Disk I/O Usage:" ;;
    st_write solution
  else
    st_success "Disk I/O usage is within normal limits.".

(** Lines 128-138; [typed] is what the text box holds at this render.  A
    Python string is true when it is not empty. *)
Definition chat_section (typed : string) (fuel : nat) : M unit :=
  st_write "---" ;;
  st_subheader "Ask the AI a question:" ;;
  user_question <- st_text_input typed "Type your question here:" ;;
  if negb (String.eqb user_question "") then
    response <- send_request_with_throttling fuel user_question ;;
    st_write "### AI's Answer:" ;;
    st_write response
  else
    ret tt.

(** The whole script, lines 60-160: one render of the page. *)
Definition page (typed : string) (fuel : nat) : M unit :=
  st_title "POC- System Metrics Monitoring" ;;
  cpu_section fuel ;;
  st_write "---" ;;
  memory_section fuel ;;
  st_write "---" ;;
  network_section fuel ;;
  st_write "---" ;;
  disk_section fuel ;;
  chat_section typed fuel ;;
  st_markdown page_style.

End Script.

Definition initial_world : world := {| sessions := []; calls := 0; clock := 0 |}.

(* ================================================================== *)
(** * Vocabulary of the statements *)

(** A reply that the dispatcher treats as a rate-limit signal. *)
Definition signals_rate_limit (r : reply) : bool :=
  match r with
  | Failure e => str_in RATE_LIMIT_MARKER (exn_str e)
  | Reply _ => false
  end.

(** An exchange that starts from nothing: the session is created with an empty
    history, the request is sent with an empty history. *)
Definition fresh_exchange (ev : event) : Prop :=
  match ev with
  | EvStartChat h => h = []
  | EvSendMessage h _ => h = []
  | _ => True
  end.

(** The sessions opened in a trace. *)
Definition openings (t : list event) : list history :=
  flat_map (fun ev => match ev with EvStartChat h => [h] | _ => [] end) t.

(** An event that is no request, and that opens a session, if it opens one,
    with an empty history. *)
Definition no_request (ev : event) : Prop :=
  match ev with
  | EvSendMessage _ _ => False
  | EvStartChat h => h = []
  | _ => True
  end.

(** Every request of the trace has a session of its own: the request comes
    right after the opening of a session with an empty history, and goes out
    with an empty history.  A request that follows anything else, a second
    request on the session of the first for one, breaks this. *)
Inductive session_per_request : list event -> Prop :=
| spr_nil : session_per_request []
| spr_exchange : forall (P : string) (rest : list event),
    session_per_request rest ->
    session_per_request (EvStartChat [] :: EvSendMessage [] P :: rest)
| spr_other : forall (ev : event) (rest : list event),
    no_request ev ->
    session_per_request rest ->
    session_per_request (ev :: rest).

(** A session that has seen one exchange at most. *)
Definition at_most_one_exchange (h : history) : Prop :=
  h = [] \/ exists P text, h = [(User, P); (Model, text)].

(** What a run from [w] to [w'] with the trace [t] does to the sessions: those
    that existed in [w] are in [w'] as they were, whatever they hold; the new
    ones are as many as the openings of [t], and none of them has seen more
    than one exchange. *)
Definition sessions_kept (w w' : world) (t : list event) : Prop :=
  exists added,
    sessions w' = (sessions w ++ added)%list /\
    List.length added = List.length (openings t) /\
    Forall at_most_one_exchange added.

(** Both at once: the requests of a run have a session each, and the run
    leaves the sessions it found alone. *)
Definition own_sessions (w w' : world) (t : list event) : Prop :=
  session_per_request t /\ sessions_kept w w' t.

(** A piece of the script keeps [R] between the world it starts in, the world
    it ends in and its trace, however it ends. *)
Definition keeps {A : Type} (R : world -> world -> list event -> Prop) (c : M A) : Prop :=
  forall w, R w (world_of (c w)) (trace_of (c w)).

(** An event of the dispatcher itself: anything but a Streamlit call. *)
Definition dispatcher_event (ev : event) : Prop :=
  match ev with
  | EvSt _ _ => False
  | _ => True
  end.

(** Every event a piece of the script produces, from any world, satisfies [Q]. *)
Definition emits_only {A : Type} (Q : event -> Prop) (c : M A) : Prop :=
  forall w, Forall Q (trace_of (c w)).

(** The float [x] is strictly greater than the integer [z], as real numbers
    (with plus infinity above every integer, and nan above none). *)
Definition exceeds (x : spec_float) (z : Z) : Prop :=
  match float_value x with
  | Some q => (inject_Z z < q)%Q
  | None => x = S754_infinity false
  end.

(** The float [x] stands for the rational [q]. *)
Definition float_is (x : spec_float) (q : Q) : Prop :=
  match float_value x with
  | Some v => (v == q)%Q
  | None => False
  end.

(** The advisory for the metric [name] at the reading [x] was asked for: its
    prompt is among the requests of the trace. *)
Definition advisory_requested (name : string) (x : spec_float) (t : list event) : Prop :=
  In ([], advisory_prompt name (PyFloat x)) (requests t).

(** The metric [name] was reported as normal. *)
Definition reports_normal (name : string) (t : list event) : Prop :=
  In (EvSt StSuccess (name ++ " usage is within normal limits.")) t.

(** The threshold rule for one metric: when sampling returns the reading [x],
    the advisory is asked for exactly when [x] exceeds [THRESHOLD], and the
    metric is reported normal exactly when it does not; when sampling fails,
    neither happens. *)
Definition threshold_rule (name : string) (sample : outcome spec_float)
    (t : list event) : Prop :=
  match sample with
  | Returned x =>
      (advisory_requested name x t <-> exceeds x THRESHOLD) /\
      (reports_normal name t <-> ~ exceeds x THRESHOLD)
  | _ => requests t = [] /\ ~ reports_normal name t
  end.

(** The shape the four metric sections share, once the reading [x] is known:
    [name] is the metric's name and [unit_] what follows the figure. *)
Definition advisory_block (model : completion_service) (name unit_ : string)
    (x : spec_float) (fuel : nat) : M unit :=
  st_write (name ++ " Usage: " ++ format_2f x ++ unit_) ;;
  if float_gt_int x THRESHOLD then
    st_warning (name ++ " usage is high! (" ++ format_2f x ++ unit_ ++ ")") ;;
    solution <- get_ai_solution model fuel name (PyFloat x) ;;
    st_write ("### AI-generated Solution for " ++ name ++ " Usage:") ;;
    st_write solution
  else
    st_success (name ++ " usage is within normal limits.").

(** The bytes counted between two snapshots. *)
Definition net_delta (before after : snetio) : Z :=
  (bytes_recv after + bytes_sent after) - (bytes_recv before + bytes_sent before).

Definition disk_delta (before after : sdiskio) : Z :=
  (read_bytes after + write_bytes after) - (read_bytes before + write_bytes before).

(** Some floats: 1.0, 75.0, the float nearest to 75.01, 75.125, 90.0, 100.0. *)
Definition float_1 : spec_float := S754_finite false 4503599627370496 (-52).
Definition float_75 : spec_float := S754_finite false 5277655813324800 (-46).
Definition float_75_01 : spec_float := S754_finite false 5278359500766577 (-46).
Definition float_75_125 : spec_float := S754_finite false 5286451906347008 (-46).
Definition float_90 : spec_float := S754_finite false 6333186975989760 (-46).
Definition float_100 : spec_float := S754_finite false 7036874417766400 (-46).

(** The claim that the prompt holds the name and the value once each. *)
Definition each_exactly_once (name : string) (value : pynum) : Prop :=
  occurrences name (advisory_prompt name value) = 1 /\
  occurrences (py_str value) (advisory_prompt name value) = 1.

(** The world after one request on a fresh session: one more session, one
    more call; [waited] is the time spent in cooldown after it. *)
Definition after_request (w : world) (h : history) (waited : nat) : world :=
  {| sessions := (sessions w ++ [h])%list; calls := S (calls w); clock := clock w + waited |}.

(** The console lines of a trace. *)
Definition prints (t : list event) : list string :=
  flat_map (fun ev => match ev with EvPrint line => [line] | _ => [] end) t.

(** The request a metric section makes at the reading [x]: the advisory prompt
    when [x] is above the threshold, none otherwise. *)
Definition advisory_requests (name : string) (x : spec_float) : list (history * string) :=
  if float_gt_int x THRESHOLD then [([], advisory_prompt name (PyFloat x))] else [].

(** The request the chat section makes: the typed text, unless it is empty. *)
Definition chat_requests (typed : string) : list (history * string) :=
  if String.eqb typed "" then [] else [([], typed)].

(** A service that answers every request. *)
Definition always_answers (model : completion_service) : Prop :=
  forall k h p, exists text, model k h p = Reply text.

(** An exception whose text does not carry the marker. *)
Definition unmarked (e : exn) (t : list event) : Prop :=
  str_in RATE_LIMIT_MARKER (exn_str e) = false.

(** Whenever a piece of the script raises, the exception and the trace so far
    satisfy [R]. *)
Definition on_raise {A : Type} (R : exn -> list event -> Prop) (c : M A) : Prop :=
  forall w e, result_of (c w) = Raised e -> R e (trace_of (c w)).

(** A section shows the answer: it returns, and its trace is what it shows
    before the dispatch, then the dispatcher's events with [N] waits of 60, then
    the header and the answer as written text. *)
Definition shows_answer (shown_before : list event) (header text : string) (N : nat)
    (run : outcome unit * world * list event) : Prop :=
  result_of run = Returned tt /\
  exists t0,
    trace_of run =
      (shown_before ++ t0 ++ [EvSt StWrite header; EvSt StWrite text])%list /\
    Forall dispatcher_event t0 /\
    sleeps t0 = repeat 60 N.

(** The reading [x] of the metric [name] that the host gives at the time [t]:
    what [psutil] reports at [t] for the two percentages, and for the two
    throughputs what the counters of [psutil] at [t] and at [t + 1] come to,
    divided as the script divides them. *)
Definition host_reading (psutil : metrics_source) (name : string) (t : nat)
    (x : spec_float) : Prop :=
  (name = "CPU" /\ x = cpu_percent psutil t) \/
  (name = "Memory" /\ x = virtual_memory_percent psutil t) \/
  (name = "Network" /\
   int_truediv (net_delta (net_io_counters psutil t) (net_io_counters psutil (t + 1)))
     1048576 = Some x) \/
  (name = "Disk I/O" /\
   int_truediv (disk_delta (disk_io_counters psutil t) (disk_io_counters psutil (t + 1)))
     1048576 = Some x).

(** What a render that runs from the time [since] to the time [till] has
    reason to send: the typed text when the box is not empty, or the advisory
    prompt of one of the four metrics for a reading that the host gave for that
    metric in that time and that is above the threshold. *)
Definition due (psutil : metrics_source) (typed : string) (since till : nat)
    (P : string) : Prop :=
  (typed <> "" /\ P = typed) \/
  exists name x t,
    since <= t <= till /\
    host_reading psutil name t x /\
    exceeds x THRESHOLD /\
    P = advisory_prompt name (PyFloat x).

Definition sends_only_due (psutil : metrics_source) (typed : string) (since till : nat)
    (ev : event) : Prop :=
  match ev with
  | EvSendMessage h P => h = [] /\ due psutil typed since till P
  | _ => True
  end.

(** Between [w] and [w'] time has not gone back, and every request of [t] was
    due in that time. *)
Definition sends_due (psutil : metrics_source) (typed : string)
    (w w' : world) (t : list event) : Prop :=
  clock w <= clock w' /\
  Forall (sends_only_due psutil typed (clock w) (clock w')) t.

(* ================================================================== *)
(** * Facts about strings *)

Lemma append_assoc : forall a b c : string, (a ++ b) ++ c = a ++ b ++ c.
Proof.
  induction a as [|ch a IH]; intros b c; simpl.
  - reflexivity.
  - now rewrite IH.
Qed.

Lemma prefix_append : forall a t : string, prefix a (a ++ t) = true.
Proof.
  induction a as [|ch a IH]; intros t; simpl.
  - destruct t; reflexivity.
  - destruct (ascii_dec ch ch) as [_|ne]; [apply IH | now elim ne].
Qed.

Lemma prefix_split : forall a s : string,
  prefix a s = true -> exists t, s = a ++ t.
Proof.
  induction a as [|ch a IH]; intros s H.
  - exists s. reflexivity.
  - destruct s as [|c s]; simpl in H; [discriminate|].
    destruct (ascii_dec ch c) as [->|]; [|discriminate].
    destruct (IH s H) as [t ->]. exists t. reflexivity.
Qed.

(** [str_in] is the literal substring test. *)
Lemma str_in_substring : forall needle hay : string,
  str_in needle hay = true <-> exists pre post, hay = pre ++ needle ++ post.
Proof.
  intros needle hay; split.
  - induction hay as [|c hay IH]; cbn [str_in]; intros H.
    + destruct (prefix needle "") eqn:E; [|discriminate].
      destruct (prefix_split _ _ E) as [t Ht]. exists "", t. exact Ht.
    + destruct (prefix needle (String c hay)) eqn:E.
      * destruct (prefix_split _ _ E) as [t Ht]. exists "", t. exact Ht.
      * destruct (IH H) as (pre & post & ->). exists (String c pre), post. reflexivity.
  - intros (pre & post & ->).
    induction pre as [|c pre IH].
    + change ("" ++ needle ++ post) with (needle ++ post).
      destruct (needle ++ post) eqn:Eq; cbn [str_in];
        rewrite <- Eq, prefix_append; reflexivity.
    + change (String c pre ++ needle ++ post) with (String c (pre ++ needle ++ post)).
      cbn [str_in].
      destruct (prefix needle (String c (pre ++ needle ++ post))); [reflexivity | exact IH].
Qed.

Lemma str_in_false : forall needle hay : string,
  str_in needle hay = false <-> forall pre post, hay <> pre ++ needle ++ post.
Proof.
  intros needle hay; split.
  - intros H pre post E.
    assert (T : str_in needle hay = true) by (apply str_in_substring; eauto).
    congruence.
  - intros H. destruct (str_in needle hay) eqn:E; [|reflexivity].
    apply str_in_substring in E. destruct E as (pre & post & E). now elim (H pre post).
Qed.

Lemma occurrences_skip : forall needle a b : string,
  occurrences needle b <= occurrences needle (a ++ b).
Proof.
  induction a as [|c a IH]; intros b.
  - apply le_n.
  - change (String c a ++ b) with (String c (a ++ b)). cbn [occurrences].
    specialize (IH b). lia.
Qed.

Lemma occurrences_at_head : forall needle t : string,
  1 <= occurrences needle (needle ++ t).
Proof.
  intros needle t.
  destruct (needle ++ t) eqn:E; cbn [occurrences]; rewrite <- E, prefix_append; lia.
Qed.

(** A needle written twice, with something in between, is found twice. *)
Lemma occurrences_twice : forall needle a b c : string,
  b <> "" -> 2 <= occurrences needle (a ++ needle ++ b ++ needle ++ c).
Proof.
  intros needle a b c Hb.
  etransitivity; [|apply occurrences_skip].
  destruct needle as [|ch needle].
  - destruct b as [|cb b]; [now elim Hb|].
    change ("" ++ String cb b ++ "" ++ c) with (String cb (b ++ c)).
    cbn [occurrences].
    pose proof (occurrences_at_head "" (b ++ c)) as H.
    change ("" ++ b ++ c) with (b ++ c) in H.
    change (prefix "" (String cb (b ++ c))) with true. cbv iota. lia.
  - change (String ch needle ++ b ++ String ch needle ++ c)
      with (String ch (needle ++ b ++ String ch needle ++ c)).
    cbn [occurrences].
    pose proof (prefix_append (String ch needle) (b ++ String ch needle ++ c)) as P.
    change (String ch needle ++ b ++ String ch needle ++ c)
      with (String ch (needle ++ b ++ String ch needle ++ c)) in P.
    rewrite P. cbv iota.
    pose proof (occurrences_skip (String ch needle) (needle ++ b) (String ch needle ++ c)) as H1.
    pose proof (occurrences_at_head (String ch needle) c) as H2.
    rewrite append_assoc in H1. lia.
Qed.

(* ================================================================== *)
(** * The dispatcher, one step at a time *)

Section DispatcherFacts.

Variable model : completion_service.

Lemma nth_error_fresh : forall (A : Type) (l : list A) (a : A),
  nth_error (l ++ [a]) (List.length l) = Some a.
Proof.
  intros A l a. rewrite nth_error_app2 by apply le_n.
  now rewrite Nat.sub_diag.
Qed.

Lemma replace_nth_fresh : forall (A : Type) (l : list A) (a b : A),
  replace_nth (List.length l) b (l ++ [a]) = (l ++ [b])%list.
Proof.
  induction l as [|x l IH]; intros a b; simpl.
  - reflexivity.
  - now rewrite IH.
Qed.

(** One pass through lines 31-50: the request goes out on a new session with
    an empty history; an answer is returned, a failure whose text carries the
    marker is followed by the two console lines, the wait and the retry, any
    other failure is raised again. *)
Lemma send_request_unfold : forall (fuel : nat) (P : string) (w : world),
  send_request_with_throttling model (S fuel) P w =
  match model (calls w) [] P with
  | Reply text =>
      (Returned text, after_request w [(User, P); (Model, text)] 0,
       [EvStartChat []; EvSendMessage [] P])
  | Failure e =>
      if str_in RATE_LIMIT_MARKER (exn_str e) then
        let '(r, w2, t2) :=
          send_request_with_throttling model fuel P (after_request w [] 60) in
        (r, w2,
         [EvStartChat []; EvSendMessage [] P;
          EvPrint ("Rate limit exceeded: " ++ exn_str e);
          EvPrint "Waiting for 1 minute before retrying...";
          EvSleep 60] ++ t2)%list
      else
        (Raised e, after_request w [] 0, [EvStartChat []; EvSendMessage [] P])
  end.
Proof.
  intros fuel P w.
  cbn [send_request_with_throttling].
  unfold try_except, bind, start_chat, send_message, ret, after_request.
  cbn [sessions calls clock].
  rewrite nth_error_fresh, !Nat.add_0_r.
  destruct (model (calls w) [] P) as [text|e].
  - rewrite replace_nth_fresh. reflexivity.
  - destruct (str_in RATE_LIMIT_MARKER (exn_str e)).
    + unfold print, emit, time_sleep. cbn [sessions calls clock].
      destruct (send_request_with_throttling model fuel P _) as [[r w2] t2].
      reflexivity.
    + reflexivity.
Qed.

Lemma sleeps_app : forall t1 t2 : list event,
  sleeps (t1 ++ t2) = (sleeps t1 ++ sleeps t2)%list.
Proof. intros; unfold sleeps; apply flat_map_app. Qed.

Lemma requests_app : forall t1 t2 : list event,
  requests (t1 ++ t2) = (requests t1 ++ requests t2)%list.
Proof. intros; unfold requests; apply flat_map_app. Qed.

Lemma repeat_snoc : forall (A : Type) (a : A) (n : nat),
  (repeat a n ++ [a])%list = repeat a (n + 1).
Proof.
  intros A a n. rewrite repeat_app. reflexivity.
Qed.

(** While the service keeps signalling a rate limit, the dispatcher keeps
    going: after [N] such signals it is where it started, [N] calls, [N]
    sessions and [N] waits of 60 later. *)
Lemma retries_unfold : forall (P : string) (N : nat) (w : world),
  (forall k, k < N -> signals_rate_limit (model (calls w + k) [] P) = true) ->
  exists wN tN,
    calls wN = calls w + N /\
    clock wN = clock w + 60 * N /\
    sleeps tN = repeat 60 N /\
    requests tN = repeat ([], P) N /\
    forall fuel,
      send_request_with_throttling model (N + fuel) P w =
      let '(r, w2, t2) := send_request_with_throttling model fuel P wN in
      (r, w2, (tN ++ t2)%list).
Proof.
  intros P N; induction N as [|N IH]; intros w H.
  - exists w, []. repeat split; try (simpl; lia).
    intros fuel; simpl.
    now destruct (send_request_with_throttling model fuel P w) as [[r w2] t2].
  - assert (H0 : signals_rate_limit (model (calls w) [] P) = true).
    { rewrite <- (Nat.add_0_r (calls w)). apply H. lia. }
    destruct (IH (after_request w [] 60)) as (wN & tN & Hc & Hk & Hs & Hr & Hrun).
    { intros k Hk. cbn [after_request calls].
      replace (S (calls w) + k) with (calls w + S k) by lia. apply H. lia. }
    cbn [after_request calls clock] in Hc, Hk.
    destruct (model (calls w) [] P) as [text|e] eqn:E; [discriminate|].
    cbn [signals_rate_limit] in H0.
    exists wN,
      ([EvStartChat []; EvSendMessage [] P;
        EvPrint ("Rate limit exceeded: " ++ exn_str e);
        EvPrint "Waiting for 1 minute before retrying...";
        EvSleep 60] ++ tN)%list.
    split; [lia|]. split; [lia|].
    split; [rewrite sleeps_app, Hs; reflexivity|].
    split; [rewrite requests_app, Hr; reflexivity|].
    intros fuel. cbn [Nat.add].
    rewrite send_request_unfold, E, H0, Hrun.
    destruct (send_request_with_throttling model fuel P wN) as [[r w2] t2].
    now rewrite <- app_assoc.
Qed.

(** C1.  If the completion service signals a rate limit on the first [N]
    requests for the prompt [P] and answers the next one with [text], then
    [send_request_with_throttling P] returns [text], the service has received
    exactly [N + 1] requests (each the same prompt, on an empty history), and
    the dispatcher has waited exactly [N] times, 60 time units each time: the
    duration does not grow.  The recursion budget has to cover the [N]
    retries. *)
Theorem rate_limited_then_success :
  forall (P text : string) (N fuel : nat) (w : world),
    (forall k, k < N -> signals_rate_limit (model (calls w + k) [] P) = true) ->
    model (calls w + N) [] P = Reply text ->
    N < fuel ->
    let run := send_request_with_throttling model fuel P w in
    result_of run = Returned text /\
    calls (world_of run) = calls w + (N + 1) /\
    requests (trace_of run) = repeat ([], P) (N + 1) /\
    sleeps (trace_of run) = repeat 60 N /\
    clock (world_of run) = clock w + 60 * N.
Proof.
  intros P text N fuel w Hlim Hok Hfuel run; subst run.
  destruct (retries_unfold P N w Hlim) as (wN & tN & Hc & Hk & Hs & Hr & Hrun).
  replace fuel with (N + S (fuel - S N)) by lia.
  rewrite Hrun, send_request_unfold, Hc, Hok.
  unfold result_of, world_of, trace_of; cbn [fst snd after_request calls clock].
  rewrite sleeps_app, requests_app, Hs, Hr.
  repeat split.
  - lia.
  - apply repeat_snoc.
  - cbn. apply app_nil_r.
  - lia.
Qed.

(** C2.  If the completion service fails and the text of the failure does not
    carry the marker, the dispatcher raises that same failure: it has sent the
    one request, it has not waited, and it sends nothing more. *)
Theorem other_failure_propagates :
  forall (P : string) (e : exn) (fuel : nat) (w : world),
    model (calls w) [] P = Failure e ->
    str_in RATE_LIMIT_MARKER (exn_str e) = false ->
    let run := send_request_with_throttling model (S fuel) P w in
    result_of run = Raised e /\
    sleeps (trace_of run) = [] /\
    requests (trace_of run) = [([], P)] /\
    calls (world_of run) = S (calls w) /\
    clock (world_of run) = clock w.
Proof.
  intros P e fuel w Hfail Hother run; subst run.
  rewrite send_request_unfold, Hfail, Hother.
  unfold result_of, world_of, trace_of; cbn.
  repeat split. apply Nat.add_0_r.
Qed.

(** X1.  A failure of another kind that comes after [N] rate-limit signals is
    raised as it is, after the [N + 1] requests and the [N] waits of 60 made so
    far: the dispatcher does not wait for it and sends nothing after it. *)
Lemma rate_limited_then_other_failure :
  forall (P : string) (e : exn) (N fuel : nat) (w : world),
    (forall k, k < N -> signals_rate_limit (model (calls w + k) [] P) = true) ->
    model (calls w + N) [] P = Failure e ->
    str_in RATE_LIMIT_MARKER (exn_str e) = false ->
    N < fuel ->
    let run := send_request_with_throttling model fuel P w in
    result_of run = Raised e /\
    requests (trace_of run) = repeat ([], P) (N + 1) /\
    sleeps (trace_of run) = repeat 60 N.
Proof.
  intros P e N fuel w Hlim Hfail Hother Hfuel run; subst run.
  destruct (retries_unfold P N w Hlim) as (wN & tN & Hc & Hk & Hs & Hr & Hrun).
  replace fuel with (N + S (fuel - S N)) by lia.
  rewrite Hrun, send_request_unfold, Hc, Hfail, Hother.
  unfold result_of, trace_of; cbn [fst snd].
  rewrite sleeps_app, requests_app, Hs, Hr.
  repeat split.
  - apply repeat_snoc.
  - cbn. apply app_nil_r.
Qed.

(** C3.  A failure is treated as a rate limit exactly when the text [str(e)]
    contains the marker as a literal substring: then, and only then, the
    dispatcher waits and retries; otherwise, and only otherwise, it raises the
    failure without waiting.  The class of the failure plays no part. *)
Theorem rate_limit_is_a_substring_match :
  forall (P : string) (e : exn) (fuel : nat) (w : world),
    model (calls w) [] P = Failure e ->
    let run := send_request_with_throttling model (S fuel) P w in
    (In (EvSleep 60) (trace_of run) <->
     exists pre post, exn_str e = pre ++ "RATE_LIMIT_EXCEEDED" ++ post) /\
    (result_of run = Raised e /\ sleeps (trace_of run) = [] <->
     forall pre post, exn_str e <> pre ++ "RATE_LIMIT_EXCEEDED" ++ post).
Proof.
  intros P e fuel w Hfail run; subst run.
  rewrite send_request_unfold, Hfail.
  change "RATE_LIMIT_EXCEEDED" with RATE_LIMIT_MARKER.
  destruct (str_in RATE_LIMIT_MARKER (exn_str e)) eqn:E.
  - pose proof (proj1 (str_in_substring _ _) E) as Hsub.
    destruct (send_request_with_throttling model fuel P _) as [[r w2] t2].
    unfold result_of, trace_of; cbn [fst snd]. split.
    + split; [intros _; exact Hsub | intros _; cbn; tauto].
    + split.
      * intros [_ Hno]. rewrite sleeps_app in Hno. discriminate Hno.
      * intros Hno. destruct Hsub as (pre & post & Hsub). now elim (Hno pre post).
  - pose proof (proj1 (str_in_false _ _) E) as Hno.
    unfold result_of, trace_of; cbn [fst snd]. split.
    + split.
      * cbn. intros [H|[H|[]]]; discriminate H.
      * intros (pre & post & Hsub). now elim (Hno pre post).
    + split; [intros _; exact Hno | intros _; split; reflexivity].
Qed.

(** Whatever the service answers, the dispatcher only ever produces events of
    these four kinds, so a property of those holds of its whole trace. *)
Lemma send_request_emits : forall (Q : event -> Prop) (P : string),
  Q (EvStartChat []) -> Q (EvSendMessage [] P) ->
  (forall line, Q (EvPrint line)) -> Q (EvSleep 60) ->
  forall (fuel : nat) (w : world),
    Forall Q (trace_of (send_request_with_throttling model fuel P w)).
Proof.
  intros Q P Hstart Hsend Hprint Hsleep.
  induction fuel as [|fuel IH]; intros w.
  - constructor.
  - rewrite send_request_unfold.
    destruct (model (calls w) [] P) as [text|e].
    + repeat constructor; assumption.
    + destruct (str_in RATE_LIMIT_MARKER (exn_str e)).
      * specialize (IH (after_request w [] 60)).
        destruct (send_request_with_throttling model fuel P _) as [[r w2] t2].
        unfold trace_of in *; cbn [snd] in *.
        repeat (constructor; [solve [auto]|]). exact IH.
      * repeat constructor; assumption.
Qed.

(** With depth for one pass at least, the dispatcher starts by sending the
    prompt on a new, empty session. *)
Lemma send_request_starts : forall (fuel : nat) (P : string) (w : world),
  exists rest,
    trace_of (send_request_with_throttling model (S fuel) P w) =
    EvStartChat [] :: EvSendMessage [] P :: rest.
Proof.
  intros fuel P w. rewrite send_request_unfold.
  destruct (model (calls w) [] P) as [text|e].
  - eexists; reflexivity.
  - destruct (str_in RATE_LIMIT_MARKER (exn_str e)).
    + destruct (send_request_with_throttling model fuel P _) as [[r w2] t2].
      eexists; reflexivity.
    + eexists; reflexivity.
Qed.

(** ** A session for each request *)

Lemma openings_app : forall t1 t2 : list event,
  openings (t1 ++ t2) = (openings t1 ++ openings t2)%list.
Proof. intros; unfold openings; apply flat_map_app. Qed.

Lemma session_per_request_app : forall t1 t2 : list event,
  session_per_request t1 -> session_per_request t2 -> session_per_request (t1 ++ t2).
Proof.
  intros t1 t2 H1 H2. induction H1 as [|P rest H IH|ev rest Hev H IH]; cbn [app].
  - exact H2.
  - apply spr_exchange. exact IH.
  - apply spr_other; assumption.
Qed.

Lemma own_sessions_refl : forall w : world, own_sessions w w [].
Proof.
  intros w. split; [apply spr_nil|].
  exists []. rewrite app_nil_r. split; [reflexivity|]. split; [reflexivity | constructor].
Qed.

(** One run after another: the sessions the first one leaves are those the
    second one finds, and keeps. *)
Lemma own_sessions_trans : forall (w w1 w2 : world) (t1 t2 : list event),
  own_sessions w w1 t1 -> own_sessions w1 w2 t2 -> own_sessions w w2 (t1 ++ t2).
Proof.
  intros w w1 w2 t1 t2 [S1 (a1 & E1 & L1 & F1)] [S2 (a2 & E2 & L2 & F2)].
  split; [apply session_per_request_app; assumption|].
  exists (a1 ++ a2)%list.
  split; [rewrite E2, E1, <- app_assoc; reflexivity|].
  split; [rewrite openings_app, !length_app, L1, L2; reflexivity|].
  apply Forall_app. split; assumption.
Qed.

(** One request on a session opened for it, whatever becomes of it. *)
Lemma own_sessions_exchange : forall (w : world) (h : history) (P : string)
    (waited : nat) (after : list event),
  at_most_one_exchange h ->
  Forall (fun ev => match ev with EvPrint _ | EvSleep _ => True | _ => False end) after ->
  own_sessions w (after_request w h waited)
    (EvStartChat [] :: EvSendMessage [] P :: after).
Proof.
  intros w h P waited after Hh Hafter. split.
  - apply spr_exchange. induction Hafter as [|ev rest Hev _ IH].
    + apply spr_nil.
    + apply spr_other; [destruct ev; (exact I || elim Hev) | exact IH].
  - exists [h]. split; [reflexivity|]. split; [|constructor; [exact Hh | constructor]].
    cbn [openings flat_map app List.length]. f_equal.
    induction Hafter as [|ev rest Hev _ IH]; [reflexivity|].
    destruct ev; (exact IH || elim Hev).
Qed.

(** The dispatcher, from any world and whatever the service does: each of its
    requests, the first one and every retry, has a session of its own, and the
    sessions it finds are left as they were. *)
Lemma send_request_own_sessions : forall (fuel : nat) (P : string),
  keeps own_sessions (send_request_with_throttling model fuel P).
Proof.
  induction fuel as [|fuel IH]; intros P w.
  - apply own_sessions_refl.
  - rewrite send_request_unfold.
    destruct (model (calls w) [] P) as [text|e].
    + apply own_sessions_exchange; [right; eauto | constructor].
    + destruct (str_in RATE_LIMIT_MARKER (exn_str e)).
      * specialize (IH P (after_request w [] 60)).
        destruct (send_request_with_throttling model fuel P _) as [[r w2] t2].
        unfold world_of, trace_of in *; cbn [fst snd] in *.
        apply own_sessions_trans with (w1 := after_request w [] 60); [|exact IH].
        apply own_sessions_exchange; [left; reflexivity|].
        repeat constructor.
      * apply own_sessions_exchange; [left; reflexivity | constructor].
Qed.

End DispatcherFacts.

(* ================================================================== *)
(** * Floats against the threshold *)

Lemma float_constants :
  int_truediv 1 1 = Some float_1 /\
  int_truediv 75 1 = Some float_75 /\
  int_truediv 7501 100 = Some float_75_01 /\
  int_truediv 75125 1000 = Some float_75_125 /\
  int_truediv 90 1 = Some float_90 /\
  int_truediv 100 1 = Some float_100 /\
  map float_repr [float_1; float_75; float_75_01; float_75_125; float_90; float_100]
  = ["1.0"; "75.0"; "75.01"; "75.125"; "90.0"; "100.0"].
Proof. repeat split; vm_compute; reflexivity. Qed.

(** [repr] and [format(_, ".2f")] on floats of every kind: short and long
    digit strings, both notations, ties, the extremes and the special values. *)
Example float_text_examples :
  map (fun x => (float_repr x, format_2f x))
    [S754_finite false 7205759403792794 (-56);
     S754_finite false 5404319552844596 (-54);
     S754_finite false 5000000000000000 1;
     S754_finite false 8000000000000000 (-3);
     S754_finite false 5902958103587057 (-69);
     S754_finite false 7378697629483821 (-66);
     S754_finite false 1 (-1074);
     S754_finite true 5629499534213120 (-51);
     S754_finite false 7036522574045512 (-46);
     S754_finite false 5764607523034235 (-60);
     S754_finite false 6004799503160661 (-54);
     S754_finite false 5200499099828224 (-35);
     S754_finite false 5960464477539062 24;
     S754_finite false 4686558362232422 (-47);
     S754_nan; S754_infinity true; S754_zero true]
  = [("0.1", "0.10");
     ("0.30000000000000004", "0.30");
     ("1e+16", "10000000000000000.00");
     ("1000000000000000.0", "1000000000000000.00");
     ("1e-05", "0.00");
     ("0.0001", "0.00");
     ("5e-324", "0.00");
     ("-2.5", "-2.50");
     ("99.995", "100.00");
     ("0.005", "0.01");
     ("0.3333333333333333", "0.33");
     ("151354.44409179688", "151354.44");
     ("1e+23", "99999999999999991611392.00");
     ("33.3", "33.30");
     ("nan", "nan"); ("-inf", "-inf"); ("-0.0", "-0.00")].
Proof. vm_compute. reflexivity. Qed.

(** The largest float prints with seventeen digits. *)
Example float_repr_largest :
  float_repr (S754_finite false 9007199254740991 971) = "1.7976931348623157e+308".
Proof. vm_compute. reflexivity. Qed.

(** [float_gt_int] decides [exceeds]: Python's [x > z] is the comparison of
    the two numbers. *)
Lemma float_gt_int_exceeds : forall (x : spec_float) (z : Z),
  float_gt_int x z = true <-> exceeds x z.
Proof.
  intros x z. unfold exceeds, float_gt_int, float_value.
  destruct x as [s|s| |s m e].
  - rewrite Z.ltb_lt, Zlt_Qlt. reflexivity.
  - destruct s; simpl; split; congruence.
  - split; congruence.
  - destruct (0 <=? e)%Z eqn:E.
    + rewrite Z.ltb_lt, Zlt_Qlt. reflexivity.
    + apply Z.leb_gt in E. rewrite Z.ltb_lt. unfold Qlt; cbn [Qnum Qden inject_Z].
      rewrite Z2Pos.id by (apply Z.pow_pos_nonneg; lia).
      rewrite Z.mul_1_r. reflexivity.
Qed.

Lemma float_gt_int_not_exceeds : forall (x : spec_float) (z : Z),
  float_gt_int x z = false <-> ~ exceeds x z.
Proof.
  intros x z. rewrite <- float_gt_int_exceeds.
  destruct (float_gt_int x z); split; congruence.
Qed.

(* ================================================================== *)
(** * Dividing a byte count by [1024 * 1024] is exact *)

Section ExactDivision.
Local Open Scope Z_scope.

Lemma digits2_pos_shiftl_nat : forall (p : positive) (n : nat),
  Zpos (digits2_pos (Pos.shiftl_nat p n)) = Zpos (digits2_pos p) + Z.of_nat n.
Proof.
  intros p n; induction n as [|n IH].
  - cbn. lia.
  - change (Pos.shiftl_nat p (S n)) with (xO (Pos.shiftl_nat p n)).
    cbn [digits2_pos]. rewrite Pos2Z.inj_succ, IH. lia.
Qed.

Lemma Zpos_shiftl_nat : forall (p : positive) (n : nat),
  Zpos (Pos.shiftl_nat p n) = Zpos p * 2 ^ Z.of_nat n.
Proof.
  intros p n; induction n as [|n IH].
  - cbn. lia.
  - change (Pos.shiftl_nat p (S n)) with (xO (Pos.shiftl_nat p n)).
    change (Zpos (Pos.shiftl_nat p n)~0) with (2 * Zpos (Pos.shiftl_nat p n)).
    rewrite IH, Nat2Z.inj_succ, Z.pow_succ_r by lia. lia.
Qed.

Lemma digits2_pos_bounds : forall p : positive,
  2 ^ (Zpos (digits2_pos p) - 1) <= Zpos p < 2 ^ Zpos (digits2_pos p).
Proof.
  induction p as [p IH|p IH|]; cbn [digits2_pos].
  - rewrite Pos2Z.inj_succ, Pos2Z.inj_xI.
    replace (Z.succ (Zpos (digits2_pos p)) - 1) with (Z.succ (Zpos (digits2_pos p) - 1)) by lia.
    rewrite !Z.pow_succ_r by lia.
    destruct IH as [IH1 IH2]. revert IH1 IH2.
    generalize (2 ^ (Zpos (digits2_pos p) - 1)) (2 ^ Zpos (digits2_pos p)).
    intros; lia.
  - rewrite Pos2Z.inj_succ. change (Zpos p~0) with (2 * Zpos p).
    replace (Z.succ (Zpos (digits2_pos p)) - 1) with (Z.succ (Zpos (digits2_pos p) - 1)) by lia.
    rewrite !Z.pow_succ_r by lia.
    destruct IH as [IH1 IH2]. revert IH1 IH2.
    generalize (2 ^ (Zpos (digits2_pos p) - 1)) (2 ^ Zpos (digits2_pos p)).
    intros; lia.
  - cbn. lia.
Qed.

Lemma div_eucl_mul : forall a b : Z, 0 < b -> Z.div_eucl (a * b) b = (a, 0).
Proof.
  intros a b Hb.
  pose proof (Z.div_mul a b ltac:(lia)) as Hq.
  pose proof (Z.mod_mul a b ltac:(lia)) as Hr.
  unfold Z.div, Z.modulo in Hq, Hr.
  destruct (Z.div_eucl (a * b) b) as [q r].
  now subst.
Qed.

Lemma SFdiv_pow2_exact : forall (s : bool) (p : positive),
  (Zpos p < 2 ^ 53)%Z ->
  SFdiv prec emax (S754_finite s p 0) (S754_finite false 1048576 0) =
  S754_finite s (Pos.shiftl_nat p (Z.to_nat (53 - Zpos (digits2_pos p))))
              (Zpos (digits2_pos p) - 73).
Proof.
  intros s p Hp.
  pose proof (digits2_pos_bounds p) as [Hlo Hhi].
  pose proof (digits2_pos_shiftl_nat p) as Hdig.
  set (d := Zpos (digits2_pos p)) in *.
  assert (Hd : 1 <= d <= 53).
  { split; [subst d; lia|].
    assert (d - 1 < 53); [|lia].
    apply (Z.pow_lt_mono_r_iff 2); lia. }
  set (k := Z.to_nat (53 - d)).
  assert (Hk : Z.of_nat k = 53 - d) by (subst k; lia).
  unfold SFdiv, SFdiv_core_binary.
  change (Zdigits2 (Zpos p)) with d.
  change (Zdigits2 1048576) with 21.
  replace (Z.min (fexp prec emax (d + 0 - (21 + 0))) (0 - 0)) with (d - 74)
    by (unfold fexp, emin, prec, emax; lia).
  replace (0 - 0 - (d - 74)) with (Z.of_nat (S (k + 20))) by lia.
  cbn [Z.of_nat].
  rewrite Z.shiftl_mul_pow2 by lia.
  change (Zpos (Pos.of_succ_nat (k + 20))) with (Z.of_nat (S (k + 20))).
  replace (Zpos p * 2 ^ Z.of_nat (S (k + 20)))
    with (Zpos (Pos.shiftl_nat p (S k)) * 1048576).
  2:{ rewrite Zpos_shiftl_nat.
      replace (Z.of_nat (S (k + 20))) with (Z.of_nat (S k) + 20) by lia.
      rewrite Z.pow_add_r by lia. change (2 ^ 20) with 1048576. lia. }
  rewrite div_eucl_mul by lia.
  change (new_location 1048576 0) with loc_Exact.
  unfold binary_round_aux, shr_fexp.
  unfold Zdigits2 at 1. rewrite Hdig.
  replace (fexp prec emax (d + Z.of_nat (S k) + (d - 74)) - (d - 74)) with 1
    by (unfold fexp, emin, prec, emax; lia).
  change (Pos.shiftl_nat p (S k)) with (xO (Pos.shiftl_nat p k)).
  cbn [shr shr_record_of_loc iter_pos shr_1 orb shr_m loc_of_shr_record round_nearest_even].
  unfold Zdigits2. rewrite Hdig.
  replace (fexp prec emax (d + Z.of_nat k + (d - 74 + 1)) - (d - 74 + 1)) with 0
    by (unfold fexp, emin, prec, emax; lia).
  cbn [shr shr_record_of_loc shr_m].
  replace (d - 74 + 1 <=? emax - prec) with true
    by (symmetry; apply Z.leb_le; unfold emax, prec; lia).
  rewrite xorb_false_r. f_equal. lia.
Qed.

(** For a byte count below [2^53] in absolute value, [delta / (1024 * 1024)]
    does not overflow and is the quotient itself: no rounding takes place. *)
Lemma int_truediv_exact : forall delta : Z,
  Z.abs delta < 2 ^ 53 ->
  exists x q,
    int_truediv delta 1048576 = Some x /\
    float_value x = Some q /\
    (q == delta # 1048576)%Q.
Proof.
  intros delta Hdelta. unfold int_truediv.
  destruct delta as [|p|p].
  - exists (S754_zero false), 0%Q. repeat split.
  - rewrite SFdiv_pow2_exact by lia.
    pose proof (digits2_pos_bounds p) as [Hlo Hhi].
    set (d := Zpos (digits2_pos p)) in *.
    assert (Hd : 1 <= d <= 53).
    { split; [subst d; lia|].
      assert (d - 1 < 53); [|lia]. apply (Z.pow_lt_mono_r_iff 2); lia. }
    eexists; eexists. split; [reflexivity|]. cbn [float_value].
    replace (0 <=? d - 73) with false by (symmetry; apply Z.leb_gt; lia).
    split; [reflexivity|].
    unfold Qeq; cbn [Qnum Qden].
    rewrite Z2Pos.id by (apply Z.pow_pos_nonneg; lia).
    rewrite Zpos_shiftl_nat, Z2Nat.id by lia.
    replace (- (d - 73)) with ((53 - d) + 20) by lia.
    rewrite Z.pow_add_r by lia. change (2 ^ 20) with 1048576. lia.
  - rewrite SFdiv_pow2_exact by lia.
    pose proof (digits2_pos_bounds p) as [Hlo Hhi].
    set (d := Zpos (digits2_pos p)) in *.
    assert (Hd : 1 <= d <= 53).
    { split; [subst d; lia|].
      assert (d - 1 < 53); [|lia]. apply (Z.pow_lt_mono_r_iff 2); lia. }
    eexists; eexists. split; [reflexivity|]. cbn [float_value].
    replace (0 <=? d - 73) with false by (symmetry; apply Z.leb_gt; lia).
    split; [reflexivity|].
    unfold Qeq; cbn [Qnum Qden].
    rewrite Z2Pos.id by (apply Z.pow_pos_nonneg; lia).
    rewrite <- !Pos2Z.opp_pos.
    rewrite Zpos_shiftl_nat, Z2Nat.id by lia.
    replace (- (d - 73)) with ((53 - d) + 20) by lia.
    rewrite Z.pow_add_r by lia. change (2 ^ 20) with 1048576. lia.
Qed.

End ExactDivision.

(* ================================================================== *)
(** * The metric sections *)

Section PageFacts.

Variable model : completion_service.
Variable psutil : metrics_source.

(** Each of the four sections is the shared block applied to its reading. *)
Lemma cpu_section_block : forall fuel : nat,
  cpu_section model psutil fuel =
  (x <- psutil_cpu_percent psutil 1 ;; advisory_block model "CPU" "%" x fuel).
Proof. reflexivity. Qed.

Lemma memory_section_block : forall fuel : nat,
  memory_section model psutil fuel =
  (x <- psutil_virtual_memory_percent psutil ;; advisory_block model "Memory" "%" x fuel).
Proof. reflexivity. Qed.

Lemma network_section_block : forall fuel : nat,
  network_section model psutil fuel =
  (x <- sample_network_usage psutil ;; advisory_block model "Network" " MB/s" x fuel).
Proof. reflexivity. Qed.

Lemma disk_section_block : forall fuel : nat,
  disk_section model psutil fuel =
  (x <- sample_disk_io_usage psutil ;; advisory_block model "Disk I/O" " MB/s" x fuel).
Proof. reflexivity. Qed.

(** Lines 93-98 and 112-117: the two snapshots are taken one time unit apart,
    and the figure is their difference divided by [1024 * 1024]. *)
Lemma sample_network_usage_eq : forall w : world,
  sample_network_usage psutil w =
  (match int_truediv (net_delta (net_io_counters psutil (clock w))
                                (net_io_counters psutil (clock w + 1))) 1048576 with
   | Some x => Returned x
   | None => Raised overflow_error
   end,
   {| sessions := sessions w; calls := calls w; clock := clock w + 1 |},
   [EvSleep 1]).
Proof.
  intros w. unfold sample_network_usage, bind, psutil_net_io_counters, time_sleep,
    py_truediv, net_delta. cbn [sessions calls clock].
  change (1024 * 1024)%positive with 1048576%positive.
  destruct (int_truediv _ 1048576); reflexivity.
Qed.

Lemma sample_disk_io_usage_eq : forall w : world,
  sample_disk_io_usage psutil w =
  (match int_truediv (disk_delta (disk_io_counters psutil (clock w))
                                 (disk_io_counters psutil (clock w + 1))) 1048576 with
   | Some x => Returned x
   | None => Raised overflow_error
   end,
   {| sessions := sessions w; calls := calls w; clock := clock w + 1 |},
   [EvSleep 1]).
Proof.
  intros w. unfold sample_disk_io_usage, bind, psutil_disk_io_counters, time_sleep,
    py_truediv, disk_delta. cbn [sessions calls clock].
  change (1024 * 1024)%positive with 1048576%positive.
  destruct (int_truediv _ 1048576); reflexivity.
Qed.

(** At or below the threshold the block writes the figure and reports normal,
    and nothing else. *)
Lemma advisory_block_below : forall (name unit_ : string) (x : spec_float)
    (fuel : nat) (w : world),
  float_gt_int x THRESHOLD = false ->
  advisory_block model name unit_ x fuel w =
  (Returned tt, w,
   [EvSt StWrite (name ++ " Usage: " ++ format_2f x ++ unit_);
    EvSt StSuccess (name ++ " usage is within normal limits.")]).
Proof.
  intros name unit_ x fuel w H.
  unfold advisory_block, bind, st_write, st_success, emit. rewrite H. reflexivity.
Qed.

(** Above the threshold the block writes the figure, warns, and hands the
    advisory prompt to the dispatcher; what follows the dispatcher's events, if
    anything, is written text. *)
Lemma advisory_block_above : forall (name unit_ : string) (x : spec_float)
    (fuel : nat) (w : world),
  float_gt_int x THRESHOLD = true ->
  exists tail,
    trace_of (advisory_block model name unit_ x fuel w) =
    ([EvSt StWrite (name ++ " Usage: " ++ format_2f x ++ unit_);
      EvSt StWarning (name ++ " usage is high! (" ++ format_2f x ++ unit_ ++ ")")]
     ++ trace_of (send_request_with_throttling model fuel
                    (advisory_prompt name (PyFloat x)) w)
     ++ tail)%list /\
    Forall (fun ev => exists text, ev = EvSt StWrite text) tail.
Proof.
  intros name unit_ x fuel w H.
  unfold advisory_block, bind, st_write, st_warning, emit, get_ai_solution.
  rewrite H.
  destruct (send_request_with_throttling model fuel _ w) as [[[sol|e] w2] t2];
    unfold trace_of; cbn [snd].
  - eexists; split; [reflexivity|]. repeat constructor; eexists; reflexivity.
  - exists []. rewrite app_nil_r. split; [reflexivity | constructor].
Qed.

Lemma in_requests : forall (h : history) (P : string) (t : list event),
  In (h, P) (requests t) <-> In (EvSendMessage h P) t.
Proof.
  intros h P t. unfold requests. rewrite in_flat_map. split.
  - intros (ev & Hin & Hev). destruct ev; cbn in Hev; try tauto.
    destruct Hev as [Hev|[]]. inversion Hev; subst. exact Hin.
  - intros Hin. exists (EvSendMessage h P). split; [exact Hin | left; reflexivity].
Qed.

(** The block obeys the threshold rule. *)
Lemma advisory_block_rule : forall (name unit_ : string) (x : spec_float)
    (fuel : nat) (w : world),
  threshold_rule name (Returned x)
    (trace_of (advisory_block model name unit_ x (S fuel) w)).
Proof.
  intros name unit_ x fuel w. unfold threshold_rule, advisory_requested, reports_normal.
  destruct (float_gt_int x THRESHOLD) eqn:G.
  - pose proof (proj1 (float_gt_int_exceeds _ _) G) as Hx.
    destruct (advisory_block_above name unit_ x (S fuel) w G) as (tail & -> & Htail).
    destruct (send_request_starts model fuel (advisory_prompt name (PyFloat x)) w)
      as (rest & Hstart).
    pose proof (send_request_emits model dispatcher_event
                  (advisory_prompt name (PyFloat x)) I I (fun _ => I) I (S fuel) w) as Hd.
    split; split; try tauto.
    + intros _. apply in_requests. rewrite Hstart. cbn. tauto.
    + intros Hin. exfalso.
      cbn [app] in Hin. destruct Hin as [Hin|[Hin|Hin]]; try discriminate Hin.
      apply in_app_or in Hin. destruct Hin as [Hin|Hin].
      * rewrite Forall_forall in Hd. exact (Hd _ Hin).
      * rewrite Forall_forall in Htail. destruct (Htail _ Hin) as [text Ht].
        discriminate Ht.
  - pose proof (proj1 (float_gt_int_not_exceeds _ _) G) as Hx.
    rewrite advisory_block_below by exact G.
    unfold trace_of; cbn [snd requests flat_map app].
    split; split; try tauto.
    + intros [].
    + intros _. cbn. tauto.
Qed.

(** A wait in front of a trace changes neither its requests nor its reports. *)
Lemma threshold_rule_after_sleep : forall (name : string) (x : spec_float)
    (n : nat) (t : list event),
  threshold_rule name (Returned x) t ->
  threshold_rule name (Returned x) (EvSleep n :: t).
Proof.
  unfold threshold_rule, advisory_requested, reports_normal.
  intros name x n t [[A1 A2] [B1 B2]]. cbn [requests flat_map app In].
  fold (requests t).
  split; split.
  - exact A1.
  - exact A2.
  - intros [H|H]; [discriminate H | exact (B1 H)].
  - intros H. right. exact (B2 H).
Qed.

(** ** What a piece of the script can emit *)

Lemma emits_only_ret : forall (A : Type) (Q : event -> Prop) (a : A),
  emits_only Q (ret a).
Proof. intros A Q a w. constructor. Qed.

Lemma emits_only_emit : forall (Q : event -> Prop) (ev : event),
  Q ev -> emits_only Q (emit ev).
Proof. intros Q ev H w. repeat constructor. exact H. Qed.

Lemma emits_only_bind : forall (A B : Type) (Q : event -> Prop) (c : M A) (k : A -> M B),
  emits_only Q c -> (forall a, emits_only Q (k a)) -> emits_only Q (bind c k).
Proof.
  intros A B Q c k Hc Hk w. unfold bind.
  specialize (Hc w). destruct (c w) as [[[a|e] w1] t1]; unfold trace_of in *; cbn [snd] in *.
  - specialize (Hk a w1). destruct (k a w1) as [[r w2] t2]. cbn [snd] in *.
    apply Forall_app. split; assumption.
  - exact Hc.
Qed.

Lemma emits_only_if : forall (A : Type) (Q : event -> Prop) (b : bool) (c1 c2 : M A),
  emits_only Q c1 -> emits_only Q c2 -> emits_only Q (if b then c1 else c2).
Proof. intros A Q b c1 c2 H1 H2. destruct b; assumption. Qed.

Lemma emits_only_sleep : forall (Q : event -> Prop) (n : nat),
  Q (EvSleep n) -> emits_only Q (time_sleep n).
Proof. intros Q n H w. repeat constructor. exact H. Qed.

Lemma emits_only_text_input : forall (Q : event -> Prop) (typed label : string),
  Q (EvSt StTextInput label) -> emits_only Q (st_text_input typed label).
Proof. intros Q typed label H w. repeat constructor. exact H. Qed.

Lemma emits_only_truediv : forall (Q : event -> Prop) (a : Z) (b : positive),
  emits_only Q (py_truediv a b).
Proof. intros Q a b w. unfold py_truediv. destruct (int_truediv a b); constructor. Qed.

Lemma emits_only_psutil : forall Q : event -> Prop,
  (forall n, emits_only Q (psutil_cpu_percent psutil n)) /\
  emits_only Q (psutil_virtual_memory_percent psutil) /\
  emits_only Q (psutil_net_io_counters psutil) /\
  emits_only Q (psutil_disk_io_counters psutil).
Proof. intros Q. repeat split; intros; intro w; constructor. Qed.

Lemma emits_only_send_request : forall (Q : event -> Prop) (fuel : nat) (P : string),
  Q (EvStartChat []) -> Q (EvSendMessage [] P) ->
  (forall line, Q (EvPrint line)) -> Q (EvSleep 60) ->
  emits_only Q (send_request_with_throttling model fuel P).
Proof. intros Q fuel P H1 H2 H3 H4 w. now apply send_request_emits. Qed.

(** A property of events that holds of every Streamlit call, console line and
    wait, and of every exchange that starts from nothing, holds of every event
    of a render. *)
Lemma page_emits : forall (Q : event -> Prop) (typed : string) (fuel : nat),
  (forall wd text, Q (EvSt wd text)) ->
  (forall line, Q (EvPrint line)) ->
  (forall n, Q (EvSleep n)) ->
  Q (EvStartChat []) ->
  (forall P, Q (EvSendMessage [] P)) ->
  emits_only Q (page model psutil typed fuel).
Proof.
  intros Q typed fuel Hst Hprint Hsleep Hstart Hsend.
  destruct (emits_only_psutil Q) as (Hcpu & Hmem & Hnet & Hdisk).
  assert (Hdisp : forall P, emits_only Q (send_request_with_throttling model fuel P))
    by (intros P; apply emits_only_send_request; auto).
  unfold page, cpu_section, memory_section, network_section, disk_section,
    chat_section, sample_network_usage, sample_disk_io_usage, get_ai_solution,
    st_title, st_write, st_warning, st_success, st_subheader, st_markdown.
  repeat first
    [ apply emits_only_bind; [|intros ?]
    | apply emits_only_if
    | apply emits_only_emit
    | apply emits_only_sleep
    | apply emits_only_text_input
    | apply emits_only_truediv
    | apply emits_only_ret
    | apply Hdisp | apply Hcpu | apply Hmem | apply Hnet | apply Hdisk
    | apply Hst | apply Hsleep ].
Qed.

(** ** What a piece of the script keeps *)

Lemma keeps_bind : forall (A B : Type) (R : world -> world -> list event -> Prop)
    (c : M A) (k : A -> M B),
  (forall w w1 w2 t1 t2, R w w1 t1 -> R w1 w2 t2 -> R w w2 (t1 ++ t2)%list) ->
  keeps R c -> (forall a, keeps R (k a)) -> keeps R (bind c k).
Proof.
  intros A B R c k Htrans Hc Hk w. unfold bind. specialize (Hc w).
  destruct (c w) as [[[a|e] w1] t1]; unfold world_of, trace_of in *; cbn [fst snd] in *.
  - specialize (Hk a w1). destruct (k a w1) as [[r w2] t2]. cbn [fst snd] in *.
    eapply Htrans; eassumption.
  - exact Hc.
Qed.

Lemma keeps_if : forall (A : Type) (R : world -> world -> list event -> Prop) (b : bool)
    (c1 c2 : M A),
  keeps R c1 -> keeps R c2 -> keeps R (if b then c1 else c2).
Proof. intros A R b c1 c2 H1 H2. destruct b; assumption. Qed.

(** A piece of the script that leaves the sessions alone and has no dealings
    with the completion service. *)
Lemma own_sessions_elsewhere : forall (A : Type) (c : M A),
  (forall w,
     sessions (world_of (c w)) = sessions w /\
     Forall (fun ev => match ev with EvSt _ _ | EvSleep _ => True | _ => False end)
       (trace_of (c w))) ->
  keeps own_sessions c.
Proof.
  intros A c Hc w. destruct (Hc w) as [Hs Ht]. split.
  - induction Ht as [|ev rest Hev _ IH].
    + apply spr_nil.
    + apply spr_other; [destruct ev; (exact I || elim Hev) | exact IH].
  - exists []. rewrite app_nil_r. split; [exact Hs|]. split; [|constructor].
    induction Ht as [|ev rest Hev _ IH]; [reflexivity|].
    destruct ev; (exact IH || elim Hev).
Qed.

(** A whole render: each of its requests has a session of its own, and the
    sessions it finds are left as they were. *)
Lemma page_own_sessions : forall (typed : string) (fuel : nat),
  keeps own_sessions (page model psutil typed fuel).
Proof.
  intros typed fuel.
  pose proof (fun P => send_request_own_sessions model fuel P) as Hdisp.
  assert (Hdiv : forall a b, keeps own_sessions (py_truediv a b)).
  { intros a b. apply own_sessions_elsewhere. intros w. unfold py_truediv.
    destruct (int_truediv a b); split; constructor. }
  unfold page, cpu_section, memory_section, network_section, disk_section,
    chat_section, sample_network_usage, sample_disk_io_usage, get_ai_solution.
  repeat first
    [ apply Hdisp
    | apply Hdiv
    | apply keeps_bind; [exact own_sessions_trans | | intros ?]
    | apply keeps_if
    | (apply own_sessions_elsewhere; intros ?; split;
       [reflexivity | repeat constructor]) ].
Qed.

(** C4.  Every exchange with the completion service starts from nothing, on a
    session of its own.  In a whole render (the four advisories and the chat
    box, retries included) and in any call of the dispatcher, from any world:
    every session is opened with an empty history and every request goes out
    with an empty history; every request, the first of a dispatch and each
    retry, comes right after the opening of a session, so no two requests share
    one; the sessions that existed before are left as they were, whatever they
    hold, and no session opened in the run has seen more than one exchange by
    its end.  And a dispatch does open one: called with depth for one pass, the
    dispatcher starts by opening a session with an empty history and sending
    the prompt on it. *)
Theorem every_exchange_is_fresh :
  forall (typed P : string) (fuel : nat) (w : world),
    let render := page model psutil typed fuel w in
    let run := send_request_with_throttling model fuel P w in
    Forall fresh_exchange (trace_of render) /\
    Forall fresh_exchange (trace_of run) /\
    session_per_request (trace_of render) /\
    session_per_request (trace_of run) /\
    sessions_kept w (world_of render) (trace_of render) /\
    sessions_kept w (world_of run) (trace_of run) /\
    exists rest,
      trace_of (send_request_with_throttling model (S fuel) P w) =
      EvStartChat [] :: EvSendMessage [] P :: rest.
Proof.
  intros typed P fuel w render run; subst render run.
  destruct (page_own_sessions typed fuel w) as [Hpage1 Hpage2].
  destruct (send_request_own_sessions model fuel P w) as [Hrun1 Hrun2].
  split; [apply page_emits; intros; exact I || reflexivity|].
  split; [apply send_request_emits; intros; exact I || reflexivity|].
  split; [exact Hpage1|]. split; [exact Hrun1|].
  split; [exact Hpage2|]. split; [exact Hrun2|].
  apply send_request_starts.
Qed.

(** C5.  The prompt [get_ai_solution] builds is the specification's template
    with the two fields filled in, for every metric name and value; it is what
    the dispatcher is handed, so what the first request carries.  The value is
    inserted as [str] gives it, not rounded: for "CPU" and the int 90 the
    prompt is the sentence with "90%", and for the float 75.125 it carries
    "75.125" where the page displays "75.12". *)
Theorem advisory_prompt_is_the_template :
  forall (metric_name : string) (value : pynum) (fuel : nat) (w : world),
    advisory_prompt metric_name value = spec_build_prompt metric_name value /\
    get_ai_solution model fuel metric_name value w =
      send_request_with_throttling model fuel (advisory_prompt metric_name value) w /\
    (exists rest,
       trace_of (get_ai_solution model (S fuel) metric_name value w) =
       EvStartChat [] :: EvSendMessage [] (advisory_prompt metric_name value) :: rest) /\
    advisory_prompt "CPU" (PyInt 90) =
      "The CPU usage is 90%. Provide step-by-step recommendations on how to resolve high CPU usage." /\
    advisory_prompt "CPU" (PyFloat float_75_125) =
      "The CPU usage is 75.125%. Provide step-by-step recommendations on how to resolve high CPU usage." /\
    format_2f float_75_125 = "75.12".
Proof.
  intros metric_name value fuel w.
  split; [reflexivity|]. split; [reflexivity|].
  split; [apply send_request_starts|].
  repeat split; vm_compute; reflexivity.
Qed.

(** C6, as amended.  The prompt is the template with the name at its two
    places and the value at its one place, so the name occurs in it at least
    twice and the value at least once; for "CPU" and 90 the name occurs exactly
    twice and the value exactly once. *)
Theorem prompt_holds_name_twice_value_once :
  forall (name : string) (value : pynum),
    advisory_prompt name value =
      "The " ++ name ++ " usage is " ++ py_str value ++
      "%. Provide step-by-step recommendations on how to resolve high " ++
      name ++ " usage." /\
    2 <= occurrences name (advisory_prompt name value) /\
    1 <= occurrences (py_str value) (advisory_prompt name value) /\
    occurrences "CPU" (advisory_prompt "CPU" (PyInt 90)) = 2 /\
    occurrences (py_str (PyInt 90)) (advisory_prompt "CPU" (PyInt 90)) = 1.
Proof.
  intros name value. split; [reflexivity|]. split; [|split].
  - pose proof (occurrences_twice name "The "
                  (" usage is " ++ py_str value ++
                   "%. Provide step-by-step recommendations on how to resolve high ")
                  " usage.") as H.
    rewrite !append_assoc in H. apply H. discriminate.
  - pose proof (occurrences_skip (py_str value) ("The " ++ name ++ " usage is ")
                  (py_str value ++
                   "%. Provide step-by-step recommendations on how to resolve high " ++
                   name ++ " usage.")) as H.
    rewrite !append_assoc in H.
    etransitivity; [apply occurrences_at_head | exact H].
  - split; vm_compute; reflexivity.
Qed.

(** C7.  One threshold, 75, for the four metrics, whatever their unit: in each
    section the advisory is asked for exactly when the reading is strictly
    greater than 75, and the metric is reported normal exactly when it is not.
    75.0 is not above the threshold; 75.01 is. *)
Theorem advisory_iff_above_threshold :
  forall (fuel : nat) (w : world),
    THRESHOLD = 75%Z /\
    threshold_rule "CPU" (Returned (cpu_percent psutil (clock w + 1)))
      (trace_of (cpu_section model psutil (S fuel) w)) /\
    threshold_rule "Memory" (Returned (virtual_memory_percent psutil (clock w)))
      (trace_of (memory_section model psutil (S fuel) w)) /\
    threshold_rule "Network" (result_of (sample_network_usage psutil w))
      (trace_of (network_section model psutil (S fuel) w)) /\
    threshold_rule "Disk I/O" (result_of (sample_disk_io_usage psutil w))
      (trace_of (disk_section model psutil (S fuel) w)) /\
    ~ exceeds float_75 THRESHOLD /\
    exceeds float_75_01 THRESHOLD.
Proof.
  intros fuel w. split; [reflexivity|].
  split; [|split; [|split; [|split]]].
  - rewrite cpu_section_block. unfold bind, psutil_cpu_percent.
    pose proof (advisory_block_rule "CPU" "%" (cpu_percent psutil (clock w + 1)) fuel
                  {| sessions := sessions w; calls := calls w; clock := clock w + 1 |}) as H.
    destruct (advisory_block model "CPU" "%" _ (S fuel) _) as [[r w2] t2].
    exact H.
  - rewrite memory_section_block. unfold bind, psutil_virtual_memory_percent.
    pose proof (advisory_block_rule "Memory" "%" (virtual_memory_percent psutil (clock w))
                  fuel w) as H.
    destruct (advisory_block model "Memory" "%" _ (S fuel) _) as [[r w2] t2].
    exact H.
  - rewrite network_section_block. unfold bind. rewrite sample_network_usage_eq.
    unfold result_of; cbn [fst].
    destruct (int_truediv _ 1048576) as [x|].
    + pose proof (advisory_block_rule "Network" " MB/s" x fuel
                    {| sessions := sessions w; calls := calls w; clock := clock w + 1 |}) as H.
      destruct (advisory_block model "Network" " MB/s" _ (S fuel) _) as [[r w2] t2].
      apply threshold_rule_after_sleep. exact H.
    + split; [reflexivity|]. intros [H|[]]. discriminate H.
  - rewrite disk_section_block. unfold bind. rewrite sample_disk_io_usage_eq.
    unfold result_of; cbn [fst].
    destruct (int_truediv _ 1048576) as [x|].
    + pose proof (advisory_block_rule "Disk I/O" " MB/s" x fuel
                    {| sessions := sessions w; calls := calls w; clock := clock w + 1 |}) as H.
      destruct (advisory_block model "Disk I/O" " MB/s" _ (S fuel) _) as [[r w2] t2].
      apply threshold_rule_after_sleep. exact H.
    + split; [reflexivity|]. intros [H|[]]. discriminate H.
  - split.
    + apply float_gt_int_not_exceeds. reflexivity.
    + apply float_gt_int_exceeds. reflexivity.
Qed.

(** C8.  The network figure is computed from two snapshots of the cumulative
    counters taken one time unit apart, as (received + sent after) minus
    (received + sent before), divided by 1,048,576; the disk figure likewise
    from the bytes read and written.  For byte counts below [2^53] the division
    is exact.  With counters totalling 0 before and 1,048,576 after, the figure
    is 1.0 and the page shows it as 1.00 MB/s. *)
Theorem usage_from_two_snapshots :
  forall (fuel : nat) (w : world),
    let nb := net_io_counters psutil (clock w) in
    let na := net_io_counters psutil (clock w + 1) in
    let db := disk_io_counters psutil (clock w) in
    let da := disk_io_counters psutil (clock w + 1) in
    sample_network_usage psutil w =
      (match int_truediv ((bytes_recv na + bytes_sent na)
                          - (bytes_recv nb + bytes_sent nb)) 1048576 with
       | Some x => Returned x
       | None => Raised overflow_error
       end,
       {| sessions := sessions w; calls := calls w; clock := clock w + 1 |},
       [EvSleep 1]) /\
    sample_disk_io_usage psutil w =
      (match int_truediv ((read_bytes da + write_bytes da)
                          - (read_bytes db + write_bytes db)) 1048576 with
       | Some x => Returned x
       | None => Raised overflow_error
       end,
       {| sessions := sessions w; calls := calls w; clock := clock w + 1 |},
       [EvSleep 1]) /\
    (forall delta : Z,
       (Z.abs delta < 2 ^ 53)%Z ->
       exists x, int_truediv delta 1048576 = Some x /\ float_is x (delta # 1048576)) /\
    ((bytes_recv nb + bytes_sent nb = 0)%Z ->
     (bytes_recv na + bytes_sent na = 1048576)%Z ->
     result_of (sample_network_usage psutil w) = Returned float_1 /\
     In (EvSt StWrite "Network Usage: 1.00 MB/s")
        (trace_of (network_section model psutil fuel w))) /\
    ((read_bytes db + write_bytes db = 0)%Z ->
     (read_bytes da + write_bytes da = 1048576)%Z ->
     result_of (sample_disk_io_usage psutil w) = Returned float_1 /\
     In (EvSt StWrite "Disk I/O Usage: 1.00 MB/s")
        (trace_of (disk_section model psutil fuel w))) /\
    float_is float_1 1.
Proof.
  intros fuel w nb na db da.
  split; [apply sample_network_usage_eq|].
  split; [apply sample_disk_io_usage_eq|].
  split.
  { intros delta Hdelta.
    destruct (int_truediv_exact delta Hdelta) as (x & q & Hx & Hq & Heq).
    exists x. split; [exact Hx|]. unfold float_is. rewrite Hq. exact Heq. }
  split; [|split; [|reflexivity]].
  - intros Hb Ha.
    rewrite network_section_block. unfold bind.
    rewrite sample_network_usage_eq. unfold net_delta. fold nb na.
    rewrite Hb, Ha.
    change (int_truediv (1048576 - 0) 1048576) with (Some float_1).
    split; [reflexivity|].
    unfold advisory_block, bind, st_write, st_success, emit.
    change (float_gt_int float_1 THRESHOLD) with false.
    change (format_2f float_1) with "1.00".
    cbn. tauto.
  - intros Hb Ha.
    rewrite disk_section_block. unfold bind.
    rewrite sample_disk_io_usage_eq. unfold disk_delta. fold db da.
    rewrite Hb, Ha.
    change (int_truediv (1048576 - 0) 1048576) with (Some float_1).
    split; [reflexivity|].
    unfold advisory_block, bind, st_write, st_success, emit.
    change (float_gt_int float_1 THRESHOLD) with false.
    change (format_2f float_1) with "1.00".
    cbn. tauto.
Qed.

(** C9.  When the text box holds the empty string, the chat section shows its
    rule, heading and field and does nothing else: no request is sent and no
    answer is displayed.  A request is sent for the chat box only when the box
    is not empty, and it then carries the typed text. *)
Theorem empty_chat_sends_nothing :
  forall (typed : string) (fuel : nat) (w : world),
    chat_section model "" fuel w =
      (Returned tt, w,
       [EvSt StWrite "---"; EvSt StSubheader "Ask the AI a question:";
        EvSt StTextInput "Type your question here:"]) /\
    (requests (trace_of (chat_section model typed fuel w)) <> [] -> typed <> "") /\
    (In (EvSt StWrite "### AI's Answer:") (trace_of (chat_section model typed fuel w)) ->
     typed <> "") /\
    (typed <> "" ->
     exists rest,
       requests (trace_of (chat_section model typed (S fuel) w)) = ([], typed) :: rest).
Proof.
  intros typed fuel w.
  split; [reflexivity|].
  destruct typed as [|c typed].
  - change (chat_section model "" fuel w)
      with (Returned tt, w,
            [EvSt StWrite "---"; EvSt StSubheader "Ask the AI a question:";
             EvSt StTextInput "Type your question here:"]).
    unfold trace_of; cbn. repeat split.
    + intros H _. now apply H.
    + intros [H|[H|[H|[]]]]; discriminate H.
    + intros H. now elim H.
  - repeat split; try discriminate.
    intros _.
    destruct (send_request_starts model fuel (String c typed) w) as (rest & Hstart).
    unfold chat_section, bind, st_write, st_subheader, st_text_input, emit.
    cbn [String.eqb negb].
    replace (String.eqb (String c typed) "") with false by reflexivity.
    cbn [negb].
    destruct (send_request_with_throttling model (S fuel) (String c typed) w)
      as [[[resp|e] w2] t2]; unfold trace_of in *; cbn [snd] in *; subst t2;
      eexists; cbn; reflexivity.
Qed.

(** C10.  When the network figure exceeds the threshold, the page labels it
    MB/s, and the prompt handed to the dispatcher is the shared template for
    the name "Network", which puts a percent sign after the same figure; the
    same holds of the disk figure under the name "Disk I/O". *)
Theorem throughput_prompts_say_percent :
  forall (fuel : nat) (w : world) (x : spec_float),
    (result_of (sample_network_usage psutil w) = Returned x ->
     exceeds x THRESHOLD ->
     exists rest,
       trace_of (network_section model psutil (S fuel) w) =
       [EvSleep 1;
        EvSt StWrite ("Network Usage: " ++ format_2f x ++ " MB/s");
        EvSt StWarning ("Network usage is high! (" ++ format_2f x ++ " MB/s)");
        EvStartChat [];
        EvSendMessage []
          ("The Network usage is " ++ float_repr x ++
           "%. Provide step-by-step recommendations on how to resolve high Network usage.")]
       ++ rest)%list /\
    (result_of (sample_disk_io_usage psutil w) = Returned x ->
     exceeds x THRESHOLD ->
     exists rest,
       trace_of (disk_section model psutil (S fuel) w) =
       [EvSleep 1;
        EvSt StWrite ("Disk I/O Usage: " ++ format_2f x ++ " MB/s");
        EvSt StWarning ("Disk I/O usage is high! (" ++ format_2f x ++ " MB/s)");
        EvStartChat [];
        EvSendMessage []
          ("The Disk I/O usage is " ++ float_repr x ++
           "%. Provide step-by-step recommendations on how to resolve high Disk I/O usage.")]
       ++ rest)%list.
Proof.
  intros fuel w x. split.
  - intros Hsample Hx. apply float_gt_int_exceeds in Hx.
    rewrite network_section_block. unfold bind.
    rewrite sample_network_usage_eq in *. unfold result_of in Hsample; cbn [fst] in Hsample.
    destruct (int_truediv _ 1048576) as [y|]; [|discriminate].
    injection Hsample as ->.
    set (w1 := {| sessions := sessions w; calls := calls w; clock := clock w + 1 |}).
    destruct (advisory_block_above "Network" " MB/s" x (S fuel) w1 Hx) as (tail & Ht & _).
    destruct (send_request_starts model fuel (advisory_prompt "Network" (PyFloat x)) w1)
      as (rest & Hstart).
    rewrite Hstart in Ht.
    destruct (advisory_block model "Network" " MB/s" x (S fuel) w1) as [[r w2] t2].
    unfold trace_of in *; cbn [snd] in *. subst t2.
    exists (rest ++ tail)%list. reflexivity.
  - intros Hsample Hx. apply float_gt_int_exceeds in Hx.
    rewrite disk_section_block. unfold bind.
    rewrite sample_disk_io_usage_eq in *. unfold result_of in Hsample; cbn [fst] in Hsample.
    destruct (int_truediv _ 1048576) as [y|]; [|discriminate].
    injection Hsample as ->.
    set (w1 := {| sessions := sessions w; calls := calls w; clock := clock w + 1 |}).
    destruct (advisory_block_above "Disk I/O" " MB/s" x (S fuel) w1 Hx) as (tail & Ht & _).
    destruct (send_request_starts model fuel (advisory_prompt "Disk I/O" (PyFloat x)) w1)
      as (rest & Hstart).
    rewrite Hstart in Ht.
    destruct (advisory_block model "Disk I/O" " MB/s" x (S fuel) w1) as [[r w2] t2].
    unfold trace_of in *; cbn [snd] in *. subst t2.
    exists (rest ++ tail)%list. reflexivity.
Qed.

End PageFacts.

(* ================================================================== *)
(** * The statements at concrete inputs *)

(** Two rate-limit failures, then an answer: three requests, two waits of 60. *)
Lemma rate_limited_then_success_witness :
  let run := send_request_with_throttling
               (stub_failing_then_ok 2 quota_failure "advice") 3 "hi" initial_world in
  result_of run = Returned "advice" /\
  calls (world_of run) = 3 /\
  requests (trace_of run) = [([], "hi"); ([], "hi"); ([], "hi")] /\
  sleeps (trace_of run) = [60; 60] /\
  clock (world_of run) = 120.
Proof.
  apply (rate_limited_then_success
           (stub_failing_then_ok 2 quota_failure "advice") "hi" "advice" 2 3 initial_world).
  - intros k Hk. destruct k as [|[|k]]; [reflexivity | reflexivity | lia].
  - reflexivity.
  - lia.
Defined.

(** An authentication failure: one request, no wait, the failure raised. *)
Lemma other_failure_propagates_witness :
  let run := send_request_with_throttling (stub_failing auth_failure) 5 "hi" initial_world in
  result_of run = Raised auth_failure /\
  sleeps (trace_of run) = [] /\
  requests (trace_of run) = [([], "hi")] /\
  calls (world_of run) = 1 /\
  clock (world_of run) = 0.
Proof.
  apply (other_failure_propagates (stub_failing auth_failure) "hi" auth_failure 4 initial_world).
  - reflexivity.
  - reflexivity.
Defined.

(** The quota failure carries the marker inside its text, and is retried. *)
Lemma rate_limit_is_a_substring_match_witness :
  let run := send_request_with_throttling (stub_failing quota_failure) 1 "hi" initial_world in
  (In (EvSleep 60) (trace_of run) <->
   exists pre post, exn_str quota_failure = pre ++ "RATE_LIMIT_EXCEEDED" ++ post) /\
  (result_of run = Raised quota_failure /\ sleeps (trace_of run) = [] <->
   forall pre post, exn_str quota_failure <> pre ++ "RATE_LIMIT_EXCEEDED" ++ post).
Proof.
  apply (rate_limit_is_a_substring_match (stub_failing quota_failure) "hi" quota_failure 0
           initial_world).
  reflexivity.
Defined.

(** The counters grow by 1,048,576 bytes in the time unit between the two
    snapshots: the figure is 1.0, shown as 1.00 MB/s, and the division of that
    byte count is exact. *)
Lemma usage_from_two_snapshots_witness :
  (result_of (sample_network_usage (steady_host float_90 float_75 1048576 1048576)
                initial_world) = Returned float_1 /\
   In (EvSt StWrite "Network Usage: 1.00 MB/s")
      (trace_of (network_section stub_counting_history
                   (steady_host float_90 float_75 1048576 1048576) 1 initial_world))) /\
  (result_of (sample_disk_io_usage (steady_host float_90 float_75 1048576 1048576)
                initial_world) = Returned float_1 /\
   In (EvSt StWrite "Disk I/O Usage: 1.00 MB/s")
      (trace_of (disk_section stub_counting_history
                   (steady_host float_90 float_75 1048576 1048576) 1 initial_world))) /\
  exists x, int_truediv 1048576 1048576 = Some x /\ float_is x (1048576 # 1048576).
Proof.
  pose proof (usage_from_two_snapshots stub_counting_history
                (steady_host float_90 float_75 1048576 1048576) 1 initial_world)
    as (_ & _ & Hexact & Hnet & Hdisk & _).
  split; [apply Hnet; reflexivity|].
  split; [apply Hdisk; reflexivity|].
  apply Hexact. reflexivity.
Defined.

(** A question in the text box is sent as typed, and shows its answer. *)
Lemma empty_chat_sends_nothing_witness :
  (exists rest,
     requests (trace_of (chat_section stub_counting_history "what?" 1 initial_world)) =
     ([], "what?") :: rest) /\
  "what?" <> "".
Proof.
  pose proof (empty_chat_sends_nothing stub_counting_history "what?" 0 initial_world)
    as (_ & _ & _ & Hsent).
  pose proof (empty_chat_sends_nothing stub_counting_history "what?" 1 initial_world)
    as (_ & _ & Hanswer & _).
  split.
  - apply Hsent. discriminate.
  - apply Hanswer. vm_compute. tauto.
Defined.

(** 100 MB in the time unit: shown as 100.00 MB/s, asked about as 100.0%. *)
Lemma throughput_prompts_say_percent_witness :
  (exists rest,
     trace_of (network_section stub_counting_history
                 (steady_host float_90 float_75 104857600 104857600) 1 initial_world) =
     [EvSleep 1;
      EvSt StWrite "Network Usage: 100.00 MB/s";
      EvSt StWarning "Network usage is high! (100.00 MB/s)";
      EvStartChat [];
      EvSendMessage []
        "The Network usage is 100.0%. Provide step-by-step recommendations on how to resolve high Network usage."]
     ++ rest)%list /\
  (exists rest,
     trace_of (disk_section stub_counting_history
                 (steady_host float_90 float_75 104857600 104857600) 1 initial_world) =
     [EvSleep 1;
      EvSt StWrite "Disk I/O Usage: 100.00 MB/s";
      EvSt StWarning "Disk I/O usage is high! (100.00 MB/s)";
      EvStartChat [];
      EvSendMessage []
        "The Disk I/O usage is 100.0%. Provide step-by-step recommendations on how to resolve high Disk I/O usage."]
     ++ rest)%list.
Proof.
  pose proof (throughput_prompts_say_percent stub_counting_history
                (steady_host float_90 float_75 104857600 104857600) 0 initial_world float_100)
    as [Hnet Hdisk].
  split.
  - apply Hnet; [reflexivity | apply float_gt_int_exceeds; reflexivity].
  - apply Hdisk; [reflexivity | apply float_gt_int_exceeds; reflexivity].
Defined.

(** C6, as stated, fails: the template names the metric twice, so "CPU" occurs
    twice in the prompt for CPU at 90. *)
Lemma name_occurs_twice_in_cpu_prompt : ~ each_exactly_once "CPU" (PyInt 90).
Proof.
  intros [Hname _]. vm_compute in Hname. discriminate Hname.
Qed.

(** ** The model at work *)

(** A session that is used again carries its history: what the script never
    does, and what [fresh_exchange] rules out. *)
Example reused_session_carries_history :
  trace_of ((chat_session <- start_chat [] ;;
             _ <- send_message stub_counting_history chat_session "a" ;;
             send_message stub_counting_history chat_session "b") initial_world)
  = [EvStartChat []; EvSendMessage [] "a";
     EvSendMessage [(User, "a"); (Model, "0")] "b"].
Proof. reflexivity. Qed.

(** A second request on the session of the first is not a session per
    request; nor is a retry on the session of a request that failed, though
    the history it goes out with is still empty. *)
Example shared_session_is_ruled_out :
  ~ session_per_request
      (trace_of ((chat_session <- start_chat [] ;;
                  _ <- send_message stub_counting_history chat_session "a" ;;
                  send_message stub_counting_history chat_session "b") initial_world)) /\
  ~ session_per_request
      [EvStartChat []; EvSendMessage [] "a"; EvSleep 60; EvSendMessage [] "a"].
Proof.
  split; intros H; [vm_compute in H|];
    repeat match goal with
           | H : session_per_request (_ :: _) |- _ => inversion H; clear H; subst
           | H : no_request (EvSendMessage _ _) |- _ => exact H
           end.
Qed.

(** The dispatcher against a service that only signals rate limits, with a
    depth of two: two exchanges, each on its own session, then RecursionError;
    the session that was there before is as it was. *)
Example dispatcher_at_the_depth_limit :
  send_request_with_throttling (stub_failing quota_failure) 2 "hi"
    {| sessions := [[(User, "old"); (Model, "turns")]]; calls := 0; clock := 0 |} =
  (Raised recursion_error,
   {| sessions := [[(User, "old"); (Model, "turns")]; []; []]; calls := 2; clock := 120 |},
   [EvStartChat []; EvSendMessage [] "hi";
    EvPrint ("Rate limit exceeded: " ++ exn_str quota_failure);
    EvPrint "Waiting for 1 minute before retrying...";
    EvSleep 60;
    EvStartChat []; EvSendMessage [] "hi";
    EvPrint ("Rate limit exceeded: " ++ exn_str quota_failure);
    EvPrint "Waiting for 1 minute before retrying...";
    EvSleep 60]).
Proof. vm_compute. reflexivity. Qed.

(** The CPU section at 75.0, at 75.01 and at 90.0. *)
Example cpu_section_at_the_boundary :
  trace_of (cpu_section stub_counting_history (steady_host float_75 float_75 0 0) 1
              initial_world)
  = [EvSt StWrite "CPU Usage: 75.00%"; EvSt StSuccess "CPU usage is within normal limits."] /\
  trace_of (cpu_section stub_counting_history (steady_host float_75_01 float_75 0 0) 1
              initial_world)
  = [EvSt StWrite "CPU Usage: 75.01%"; EvSt StWarning "CPU usage is high! (75.01%)";
     EvStartChat [];
     EvSendMessage []
       "The CPU usage is 75.01%. Provide step-by-step recommendations on how to resolve high CPU usage.";
     EvSt StWrite "### AI-generated Solution for CPU Usage:"; EvSt StWrite "0"] /\
  trace_of (cpu_section stub_counting_history (steady_host float_90 float_75 0 0) 1
              initial_world)
  = [EvSt StWrite "CPU Usage: 90.00%"; EvSt StWarning "CPU usage is high! (90.00%)";
     EvStartChat [];
     EvSendMessage []
       "The CPU usage is 90.0%. Provide step-by-step recommendations on how to resolve high CPU usage.";
     EvSt StWrite "### AI-generated Solution for CPU Usage:"; EvSt StWrite "0"].
Proof. repeat split; vm_compute; reflexivity. Qed.

(** A throughput just above 75 MB/s is displayed as 75.00 MB/s and asked
    about with all its digits. *)
Example network_section_just_above :
  trace_of (network_section stub_counting_history (steady_host float_75 float_75 78643201 0) 1
              initial_world)
  = [EvSleep 1;
     EvSt StWrite "Network Usage: 75.00 MB/s";
     EvSt StWarning "Network usage is high! (75.00 MB/s)";
     EvStartChat [];
     EvSendMessage []
       "The Network usage is 75.00000095367432%. Provide step-by-step recommendations on how to resolve high Network usage.";
     EvSt StWrite "### AI-generated Solution for Network Usage:"; EvSt StWrite "0"].
Proof. vm_compute; reflexivity. Qed.

(** A failure that is not a rate limit ends the render where it is raised. *)
Example page_stops_at_a_failure :
  let run := page (stub_failing auth_failure) (steady_host float_90 float_75 0 0) "hello" 3
               initial_world in
  result_of run = Raised auth_failure /\
  trace_of run =
  [EvSt StTitle "POC- System Metrics Monitoring";
   EvSt StWrite "CPU Usage: 90.00%"; EvSt StWarning "CPU usage is high! (90.00%)";
   EvStartChat [];
   EvSendMessage []
     "The CPU usage is 90.0%. Provide step-by-step recommendations on how to resolve high CPU usage."].
Proof. split; vm_compute; reflexivity. Qed.

(* ================================================================== *)
(** * The dispatcher on any service *)

Section DispatcherRuns.

Variable model : completion_service.

Lemma prints_app : forall t1 t2 : list event,
  prints (t1 ++ t2) = (prints t1 ++ prints t2)%list.
Proof. intros; unfold prints; apply flat_map_app. Qed.

(** Every run of the dispatcher, on any service and with any depth left: [n]
    rate-limit signals, each followed by the two console lines and the wait,
    and then the depth is used up and the next call raises RecursionError, or
    the service answers, or it fails in another way. *)
Lemma send_request_char : forall (fuel : nat) (P : string) (w : world),
  exists n tN wN,
    (forall j, j < n -> signals_rate_limit (model (calls w + j) [] P) = true) /\
    n <= fuel /\
    calls wN = calls w + n /\
    clock wN = clock w + 60 * n /\
    sleeps tN = repeat 60 n /\
    requests tN = repeat ([], P) n /\
    List.length (prints tN) = 2 * n /\
    Forall dispatcher_event tN /\
    ((n = fuel /\
      send_request_with_throttling model fuel P w = (Raised recursion_error, wN, tN)) \/
     (exists text,
        n < fuel /\
        model (calls w + n) [] P = Reply text /\
        send_request_with_throttling model fuel P w =
        (Returned text, after_request wN [(User, P); (Model, text)] 0,
         (tN ++ [EvStartChat []; EvSendMessage [] P])%list)) \/
     (exists e,
        n < fuel /\
        model (calls w + n) [] P = Failure e /\
        str_in RATE_LIMIT_MARKER (exn_str e) = false /\
        send_request_with_throttling model fuel P w =
        (Raised e, after_request wN [] 0,
         (tN ++ [EvStartChat []; EvSendMessage [] P])%list))).
Proof.
  assert (Hzero : forall (P : string) (w : world),
            (forall j, j < 0 -> signals_rate_limit (model (calls w + j) [] P) = true) /\
            calls w = calls w + 0 /\ clock w = clock w + 60 * 0).
  { intros P w. split; [intros j Hj; lia | split; lia]. }
  induction fuel as [|fuel IH]; intros P w.
  - exists 0, [], w. destruct (Hzero P w) as (H1 & H2 & H3).
    split; [exact H1|]. split; [apply le_n|]. split; [exact H2|]. split; [exact H3|].
    split; [reflexivity|]. split; [reflexivity|]. split; [reflexivity|].
    split; [constructor|].
    left. split; reflexivity.
  - rewrite send_request_unfold.
    destruct (model (calls w) [] P) as [text|e] eqn:E.
    + exists 0, [], w. destruct (Hzero P w) as (H1 & H2 & H3).
      split; [exact H1|]. split; [apply Nat.le_0_l|]. split; [exact H2|]. split; [exact H3|].
      split; [reflexivity|]. split; [reflexivity|]. split; [reflexivity|].
      split; [constructor|].
      right; left. exists text. rewrite Nat.add_0_r.
      split; [apply Nat.lt_0_succ|]. split; [exact E | reflexivity].
    + destruct (str_in RATE_LIMIT_MARKER (exn_str e)) eqn:Hm.
      * destruct (IH P (after_request w [] 60))
          as (n & tN & wN & Hlim & Hle & Hc & Hk & Hs & Hr & Hp & Hd & Hcase).
        cbn [after_request calls clock] in Hlim, Hc, Hk, Hcase.
        exists (S n),
          ([EvStartChat []; EvSendMessage [] P;
            EvPrint ("Rate limit exceeded: " ++ exn_str e);
            EvPrint "Waiting for 1 minute before retrying...";
            EvSleep 60] ++ tN)%list, wN.
        split.
        { intros j Hj. destruct j as [|j].
          - rewrite Nat.add_0_r, E. exact Hm.
          - replace (calls w + S j) with (S (calls w) + j) by lia. apply Hlim. lia. }
        split; [lia|]. split; [lia|]. split; [lia|].
        split; [rewrite sleeps_app, Hs; reflexivity|].
        split; [rewrite requests_app, Hr; reflexivity|].
        split; [rewrite prints_app, length_app, Hp; cbn; lia|].
        split; [repeat (constructor; [exact I|]); exact Hd|].
        replace (calls w + S n) with (S (calls w) + n) by lia.
        destruct Hcase as [[Hn Heq]|[(text & Hn & Hrep & Heq)|(e' & Hn & Hrep & Hno & Heq)]];
          rewrite Heq.
        -- left. split; [lia | reflexivity].
        -- right; left. exists text.
           split; [lia|]. split; [exact Hrep | reflexivity].
        -- right; right. exists e'.
           split; [lia|]. split; [exact Hrep|]. split; [exact Hno | reflexivity].
      * exists 0, [], w. destruct (Hzero P w) as (H1 & H2 & H3).
        split; [exact H1|]. split; [apply Nat.le_0_l|]. split; [exact H2|]. split; [exact H3|].
        split; [reflexivity|]. split; [reflexivity|]. split; [reflexivity|].
        split; [constructor|].
        right; right. exists e. rewrite Nat.add_0_r.
        split; [apply Nat.lt_0_succ|]. split; [exact E|]. split; [exact Hm | reflexivity].
Qed.




(** When the dispatcher raises, the text of the exception does not carry the
    marker. *)
Lemma send_request_on_raise : forall (fuel : nat) (P : string),
  on_raise unmarked (send_request_with_throttling model fuel P).
Proof.
  intros fuel P w e Hraise.
  destruct (send_request_char fuel P w)
    as (n & tN & wN & _ & _ & _ & _ & _ & _ & _ & _ & Hcase).
  destruct Hcase as [[Hn Heq]|[(text & _ & _ & Heq)|(e' & _ & _ & Hno & Heq)]];
    rewrite Heq in *; unfold result_of, trace_of in *; cbn [fst snd] in *;
    try discriminate Hraise.
  - injection Hraise as <-. reflexivity.
  - injection Hraise as <-. exact Hno.
Qed.

(** Time does not go back in the dispatcher. *)
Lemma send_request_clock : forall (fuel : nat) (P : string) (w : world),
  clock w <= clock (world_of (send_request_with_throttling model fuel P w)).
Proof.
  intros fuel P w.
  destruct (send_request_char fuel P w)
    as (n & tN & wN & _ & _ & _ & Hk & _ & _ & _ & _ & Hcase).
  destruct Hcase as [[_ Heq]|[(text & _ & _ & Heq)|(e & _ & _ & _ & Heq)]];
    rewrite Heq; unfold world_of; cbn [fst snd after_request clock]; lia.
Qed.

End DispatcherRuns.

(* ================================================================== *)
(** * A render as a whole *)

Section RenderFacts.

Variable model : completion_service.
Variable psutil : metrics_source.

(** ** How a render fails *)

Lemma on_raise_returns : forall (A : Type) (R : exn -> list event -> Prop) (c : M A),
  (forall w, exists a w' t, c w = (Returned a, w', t)) -> on_raise R c.
Proof.
  intros A R c Hc w e Hraise. destruct (Hc w) as (a & w' & t & Heq).
  rewrite Heq in Hraise. discriminate Hraise.
Qed.

Lemma on_raise_bind : forall (A B : Type) (R : exn -> list event -> Prop)
    (c : M A) (k : A -> M B),
  (forall e t0 t, R e t -> R e (t0 ++ t)%list) ->
  on_raise R c -> (forall a, on_raise R (k a)) -> on_raise R (bind c k).
Proof.
  intros A B R c k Hgrow Hc Hk w e. unfold bind.
  specialize (Hc w). destruct (c w) as [[[a|e1] w1] t1];
    unfold result_of, trace_of in *; cbn [fst snd] in *.
  - specialize (Hk a w1 e). destruct (k a w1) as [[r w2] t2]. cbn [fst snd] in *.
    intros Hraise. apply Hgrow. exact (Hk Hraise).
  - intros Hraise. injection Hraise as <-. exact (Hc e1 eq_refl).
Qed.

Lemma on_raise_if : forall (A : Type) (R : exn -> list event -> Prop) (b : bool)
    (c1 c2 : M A),
  on_raise R c1 -> on_raise R c2 -> on_raise R (if b then c1 else c2).
Proof. intros A R b c1 c2 H1 H2. destruct b; assumption. Qed.

Lemma sample_network_usage_on_raise : on_raise unmarked (sample_network_usage psutil).
Proof.
  intros w e. rewrite sample_network_usage_eq.
  unfold result_of, trace_of; cbn [fst snd].
  destruct (int_truediv _ 1048576); [discriminate|].
  intros H; injection H as <-. reflexivity.
Qed.

Lemma sample_disk_io_usage_on_raise : on_raise unmarked (sample_disk_io_usage psutil).
Proof.
  intros w e. rewrite sample_disk_io_usage_eq.
  unfold result_of, trace_of; cbn [fst snd].
  destruct (int_truediv _ 1048576); [discriminate|].
  intros H; injection H as <-. reflexivity.
Qed.

Lemma page_on_raise : forall (typed : string) (fuel : nat),
  on_raise unmarked (page model psutil typed fuel).
Proof.
  intros typed fuel.
  pose proof (fun P => send_request_on_raise model fuel P) as Hdisp.
  unfold page, cpu_section, memory_section, network_section, disk_section,
    chat_section, get_ai_solution.
  repeat first
    [ apply Hdisp
    | apply sample_network_usage_on_raise
    | apply sample_disk_io_usage_on_raise
    | apply on_raise_bind; [intros ? ? ? H; exact H | | intros ?]
    | apply on_raise_if
    | (apply on_raise_returns; intros ?; eexists; eexists; eexists; reflexivity) ].
Qed.

(** X7.  A render never fails with a rate-limit failure: whatever exception
    ends it, its text does not carry the marker. *)
Theorem render_never_raises_a_rate_limit :
  forall (typed : string) (fuel : nat) (w : world) (e : exn),
    result_of (page model psutil typed fuel w) = Raised e ->
    str_in RATE_LIMIT_MARKER (exn_str e) = false.
Proof.
  intros typed fuel w e Hraise.
  exact (page_on_raise typed fuel w e Hraise).
Qed.

(** ** The sections, run one after the other *)

Lemma cpu_section_run : forall (fuel : nat) (w : world),
  cpu_section model psutil fuel w =
  advisory_block model "CPU" "%" (cpu_percent psutil (clock w + 1)) fuel
    {| sessions := sessions w; calls := calls w; clock := clock w + 1 |}.
Proof.
  intros fuel w. rewrite cpu_section_block. unfold bind, psutil_cpu_percent.
  now destruct (advisory_block model "CPU" "%" _ fuel _) as [[r w2] t2].
Qed.

Lemma memory_section_run : forall (fuel : nat) (w : world),
  memory_section model psutil fuel w =
  advisory_block model "Memory" "%" (virtual_memory_percent psutil (clock w)) fuel w.
Proof.
  intros fuel w. rewrite memory_section_block. unfold bind, psutil_virtual_memory_percent.
  now destruct (advisory_block model "Memory" "%" _ fuel _) as [[r w2] t2].
Qed.

Lemma network_section_run : forall (fuel : nat) (w : world) (x : spec_float),
  int_truediv (net_delta (net_io_counters psutil (clock w))
                         (net_io_counters psutil (clock w + 1))) 1048576 = Some x ->
  network_section model psutil fuel w =
  let '(r, w2, t2) :=
    advisory_block model "Network" " MB/s" x fuel
      {| sessions := sessions w; calls := calls w; clock := clock w + 1 |} in
  (r, w2, EvSleep 1 :: t2).
Proof.
  intros fuel w x Hx. rewrite network_section_block. unfold bind.
  rewrite sample_network_usage_eq, Hx. reflexivity.
Qed.

Lemma disk_section_run : forall (fuel : nat) (w : world) (x : spec_float),
  int_truediv (disk_delta (disk_io_counters psutil (clock w))
                          (disk_io_counters psutil (clock w + 1))) 1048576 = Some x ->
  disk_section model psutil fuel w =
  let '(r, w2, t2) :=
    advisory_block model "Disk I/O" " MB/s" x fuel
      {| sessions := sessions w; calls := calls w; clock := clock w + 1 |} in
  (r, w2, EvSleep 1 :: t2).
Proof.
  intros fuel w x Hx. rewrite disk_section_block. unfold bind.
  rewrite sample_disk_io_usage_eq, Hx. reflexivity.
Qed.

(** A render in which every section returns: the title, the sections in the
    order CPU, memory, network, disk, chat, with a rule between the metric
    sections, and the style at the end. *)
Lemma page_of_sections : forall (typed : string) (fuel : nat)
    (w w1 w2 w3 w4 w5 : world) (t1 t2 t3 t4 t5 : list event),
  cpu_section model psutil fuel w = (Returned tt, w1, t1) ->
  memory_section model psutil fuel w1 = (Returned tt, w2, t2) ->
  network_section model psutil fuel w2 = (Returned tt, w3, t3) ->
  disk_section model psutil fuel w3 = (Returned tt, w4, t4) ->
  chat_section model typed fuel w4 = (Returned tt, w5, t5) ->
  page model psutil typed fuel w =
  (Returned tt, w5,
   [EvSt StTitle "POC- System Metrics Monitoring"] ++ t1 ++
   [EvSt StWrite "---"] ++ t2 ++ [EvSt StWrite "---"] ++ t3 ++
   [EvSt StWrite "---"] ++ t4 ++ t5 ++ [EvSt StMarkdown page_style])%list.
Proof.
  intros typed fuel w w1 w2 w3 w4 w5 t1 t2 t3 t4 t5 H1 H2 H3 H4 H5.
  unfold page, bind, st_title, st_write, st_markdown, emit.
  rewrite H1, H2, H3, H4, H5. reflexivity.
Qed.

(** X5.  A render in which no reading exceeds the threshold and the text box
    is empty never contacts the completion service, whatever that service
    would do: it returns, having shown the title, each figure with its "normal"
    banner, the chat heading and field and the style, and having waited only
    the two sampling seconds. *)
Theorem quiet_render_contacts_nobody :
  forall (fuel : nat) (w : world) (xn xd : spec_float),
    let cpu := cpu_percent psutil (clock w + 1) in
    let mem := virtual_memory_percent psutil (clock w + 1) in
    ~ exceeds cpu THRESHOLD ->
    ~ exceeds mem THRESHOLD ->
    int_truediv (net_delta (net_io_counters psutil (clock w + 1))
                           (net_io_counters psutil (clock w + 2))) 1048576 = Some xn ->
    ~ exceeds xn THRESHOLD ->
    int_truediv (disk_delta (disk_io_counters psutil (clock w + 2))
                            (disk_io_counters psutil (clock w + 3))) 1048576 = Some xd ->
    ~ exceeds xd THRESHOLD ->
    page model psutil "" fuel w =
    (Returned tt,
     {| sessions := sessions w; calls := calls w; clock := clock w + 3 |},
     [EvSt StTitle "POC- System Metrics Monitoring";
      EvSt StWrite ("CPU Usage: " ++ format_2f cpu ++ "%");
      EvSt StSuccess "CPU usage is within normal limits.";
      EvSt StWrite "---";
      EvSt StWrite ("Memory Usage: " ++ format_2f mem ++ "%");
      EvSt StSuccess "Memory usage is within normal limits.";
      EvSt StWrite "---";
      EvSleep 1;
      EvSt StWrite ("Network Usage: " ++ format_2f xn ++ " MB/s");
      EvSt StSuccess "Network usage is within normal limits.";
      EvSt StWrite "---";
      EvSleep 1;
      EvSt StWrite ("Disk I/O Usage: " ++ format_2f xd ++ " MB/s");
      EvSt StSuccess "Disk I/O usage is within normal limits.";
      EvSt StWrite "---";
      EvSt StSubheader "Ask the AI a question:";
      EvSt StTextInput "Type your question here:";
      EvSt StMarkdown page_style]).
Proof.
  intros fuel w xn xd cpu mem Hcpu Hmem Hn Hxn Hd Hxd.
  apply float_gt_int_not_exceeds in Hcpu, Hmem, Hxn, Hxd.
  set (w1 := {| sessions := sessions w; calls := calls w; clock := clock w + 1 |}).
  set (w2 := {| sessions := sessions w; calls := calls w; clock := clock w + 2 |}).
  set (w3 := {| sessions := sessions w; calls := calls w; clock := clock w + 3 |}).
  pose (quiet := fun (name unit_ : string) (x : spec_float) =>
          [EvSt StWrite (name ++ " Usage: " ++ format_2f x ++ unit_);
           EvSt StSuccess (name ++ " usage is within normal limits.")]).
  assert (H1 : cpu_section model psutil fuel w = (Returned tt, w1, quiet "CPU" "%" cpu))
    by (rewrite cpu_section_run; apply advisory_block_below; exact Hcpu).
  assert (H2 : memory_section model psutil fuel w1 = (Returned tt, w1, quiet "Memory" "%" mem))
    by (rewrite memory_section_run; apply advisory_block_below; exact Hmem).
  assert (H3 : network_section model psutil fuel w1 =
               (Returned tt, w2, EvSleep 1 :: quiet "Network" " MB/s" xn)).
  { rewrite (network_section_run fuel w1 xn).
    - rewrite advisory_block_below by exact Hxn.
      unfold w1, w2; cbn [sessions calls clock].
      replace (clock w + 1 + 1) with (clock w + 2) by lia. reflexivity.
    - unfold w1; cbn [clock].
      replace (clock w + 1 + 1) with (clock w + 2) by lia. exact Hn. }
  assert (H4 : disk_section model psutil fuel w2 =
               (Returned tt, w3, EvSleep 1 :: quiet "Disk I/O" " MB/s" xd)).
  { rewrite (disk_section_run fuel w2 xd).
    - rewrite advisory_block_below by exact Hxd.
      unfold w2, w3; cbn [sessions calls clock].
      replace (clock w + 2 + 1) with (clock w + 3) by lia. reflexivity.
    - unfold w2; cbn [clock].
      replace (clock w + 2 + 1) with (clock w + 3) by lia. exact Hd. }
  rewrite (page_of_sections "" fuel w w1 w1 w2 w3 w3 _ _ _ _ _ H1 H2 H3 H4 eq_refl).
  reflexivity.
Qed.

(** With a service that answers, a block returns after at most one request,
    without waiting. *)
Lemma advisory_block_answered : forall (name unit_ : string) (x : spec_float)
    (fuel : nat) (w : world),
  always_answers model ->
  exists w' t,
    advisory_block model name unit_ x (S fuel) w = (Returned tt, w', t) /\
    requests t = advisory_requests name x /\
    sleeps t = [] /\
    clock w' = clock w.
Proof.
  intros name unit_ x fuel w Hans. unfold advisory_requests.
  destruct (float_gt_int x THRESHOLD) eqn:G.
  - destruct (Hans (calls w) [] (advisory_prompt name (PyFloat x))) as [text E].
    unfold advisory_block, bind, get_ai_solution, st_write, st_warning, emit.
    rewrite G, send_request_unfold, E.
    eexists; eexists. split; [reflexivity|].
    split; [reflexivity|]. split; [reflexivity|].
    cbn [after_request clock]. apply Nat.add_0_r.
  - rewrite advisory_block_below by exact G.
    eexists; eexists. split; [reflexivity|]. repeat split.
Qed.

Lemma chat_section_answered : forall (typed : string) (fuel : nat) (w : world),
  always_answers model ->
  exists w' t,
    chat_section model typed (S fuel) w = (Returned tt, w', t) /\
    requests t = chat_requests typed /\
    sleeps t = [] /\
    clock w' = clock w.
Proof.
  intros typed fuel w Hans.
  unfold chat_section, chat_requests, bind, st_write, st_subheader, st_text_input, emit.
  destruct (String.eqb typed "") eqn:E; cbn [negb].
  - eexists; eexists. split; [reflexivity|]. repeat split.
  - destruct (Hans (calls w) [] typed) as [text Hrep].
    rewrite send_request_unfold, Hrep.
    eexists; eexists. split; [reflexivity|].
    split; [reflexivity|]. split; [reflexivity|].
    cbn [after_request clock]. apply Nat.add_0_r.
Qed.

(** X6.  With a service that answers every request, a render returns after
    one request per reading above the threshold, in the order CPU, memory,
    network, disk, followed by the typed text if the box is not empty; each on
    an empty history.  It waits the two sampling seconds and nothing more. *)
Theorem render_with_answering_service :
  forall (typed : string) (fuel : nat) (w : world) (xn xd : spec_float),
    always_answers model ->
    int_truediv (net_delta (net_io_counters psutil (clock w + 1))
                           (net_io_counters psutil (clock w + 2))) 1048576 = Some xn ->
    int_truediv (disk_delta (disk_io_counters psutil (clock w + 2))
                            (disk_io_counters psutil (clock w + 3))) 1048576 = Some xd ->
    let run := page model psutil typed (S fuel) w in
    result_of run = Returned tt /\
    requests (trace_of run) =
      (advisory_requests "CPU" (cpu_percent psutil (clock w + 1)) ++
       advisory_requests "Memory" (virtual_memory_percent psutil (clock w + 1)) ++
       advisory_requests "Network" xn ++
       advisory_requests "Disk I/O" xd ++
       chat_requests typed)%list /\
    sleeps (trace_of run) = [1; 1] /\
    clock (world_of run) = clock w + 3.
Proof.
  intros typed fuel w xn xd Hans Hn Hd run; subst run.
  set (w1 := {| sessions := sessions w; calls := calls w; clock := clock w + 1 |}).
  destruct (advisory_block_answered "CPU" "%" (cpu_percent psutil (clock w + 1)) fuel w1 Hans)
    as (w2 & t1 & E1 & R1 & S1 & K1).
  destruct (advisory_block_answered "Memory" "%" (virtual_memory_percent psutil (clock w2))
              fuel w2 Hans) as (w3 & t2 & E2 & R2 & S2 & K2).
  assert (C3 : clock w3 = clock w + 1) by (rewrite K2, K1; reflexivity).
  set (w3' := {| sessions := sessions w3; calls := calls w3; clock := clock w3 + 1 |}).
  destruct (advisory_block_answered "Network" " MB/s" xn fuel w3' Hans)
    as (w4 & t3 & E3 & R3 & S3 & K3).
  assert (C4 : clock w4 = clock w + 2) by (rewrite K3; unfold w3'; cbn [clock]; lia).
  set (w4' := {| sessions := sessions w4; calls := calls w4; clock := clock w4 + 1 |}).
  destruct (advisory_block_answered "Disk I/O" " MB/s" xd fuel w4' Hans)
    as (w5 & t4 & E4 & R4 & S4 & K4).
  assert (C5 : clock w5 = clock w + 3) by (rewrite K4; unfold w4'; cbn [clock]; lia).
  destruct (chat_section_answered typed fuel w5 Hans) as (w6 & t5 & E5 & R5 & S5 & K5).
  assert (H1 : cpu_section model psutil (S fuel) w = (Returned tt, w2, t1))
    by (rewrite cpu_section_run; exact E1).
  assert (H2 : memory_section model psutil (S fuel) w2 = (Returned tt, w3, t2))
    by (rewrite memory_section_run; exact E2).
  assert (H3 : network_section model psutil (S fuel) w3 = (Returned tt, w4, EvSleep 1 :: t3)).
  { rewrite (network_section_run (S fuel) w3 xn).
    - fold w3'. rewrite E3. reflexivity.
    - rewrite C3. replace (clock w + 1 + 1) with (clock w + 2) by lia. exact Hn. }
  assert (H4 : disk_section model psutil (S fuel) w4 = (Returned tt, w5, EvSleep 1 :: t4)).
  { rewrite (disk_section_run (S fuel) w4 xd).
    - fold w4'. rewrite E4. reflexivity.
    - rewrite C4. replace (clock w + 2 + 1) with (clock w + 3) by lia. exact Hd. }
  rewrite (page_of_sections typed (S fuel) w w2 w3 w4 w5 w6 _ _ _ _ _ H1 H2 H3 H4 E5).
  unfold result_of, world_of, trace_of; cbn [fst snd].
  split; [reflexivity|].
  change (EvSleep 1 :: t3) with ([EvSleep 1] ++ t3)%list.
  change (EvSleep 1 :: t4) with ([EvSleep 1] ++ t4)%list.
  rewrite !requests_app, !sleeps_app.
  rewrite R1, R2, R3, R4, R5, S1, S2, S3, S4, S5.
  unfold w1 in K1; cbn [clock] in K1. rewrite K1.
  cbn [requests sleeps flat_map app].
  rewrite !app_nil_r.
  split; [reflexivity|]. split; [reflexivity | lia].
Qed.

(** ** The threshold in bytes *)

(** A figure that is exactly [delta / 1048576] exceeds 75 exactly when [delta]
    is more than 75 * 1048576 bytes. *)
Lemma exceeds_in_bytes : forall (x : spec_float) (delta : Z),
  float_is x (delta # 1048576) ->
  (exceeds x THRESHOLD <-> (78643200 < delta)%Z).
Proof.
  intros x delta. unfold float_is, exceeds.
  destruct (float_value x) as [q|]; [|intros []].
  intros Hq. rewrite Hq. unfold Qlt, THRESHOLD; cbn [Qnum Qden inject_Z]. lia.
Qed.

(** X9.  For byte counts below [2^53], the network section asks for the
    advisory exactly when more than 78,643,200 bytes were counted between the
    two snapshots, and reports normal otherwise; a counter that went backwards
    is reported normal.  The disk section does the same with the bytes read and
    written. *)
Theorem throughput_threshold_in_bytes :
  forall (fuel : nat) (w : world),
    let nd := net_delta (net_io_counters psutil (clock w))
                        (net_io_counters psutil (clock w + 1)) in
    let dd := disk_delta (disk_io_counters psutil (clock w))
                         (disk_io_counters psutil (clock w + 1)) in
    ((Z.abs nd < 2 ^ 53)%Z ->
     exists x,
       result_of (sample_network_usage psutil w) = Returned x /\
       (advisory_requested "Network" x
          (trace_of (network_section model psutil (S fuel) w)) <->
        (78643200 < nd)%Z) /\
       (reports_normal "Network" (trace_of (network_section model psutil (S fuel) w)) <->
        (nd <= 78643200)%Z)) /\
    ((Z.abs dd < 2 ^ 53)%Z ->
     exists x,
       result_of (sample_disk_io_usage psutil w) = Returned x /\
       (advisory_requested "Disk I/O" x
          (trace_of (disk_section model psutil (S fuel) w)) <->
        (78643200 < dd)%Z) /\
       (reports_normal "Disk I/O" (trace_of (disk_section model psutil (S fuel) w)) <->
        (dd <= 78643200)%Z)).
Proof.
  intros fuel w nd dd. split.
  - intros Hsmall.
    destruct (int_truediv_exact nd Hsmall) as (x & q & Hx & Hq & Heq).
    assert (Hbytes : exceeds x THRESHOLD <-> (78643200 < nd)%Z).
    { apply exceeds_in_bytes. unfold float_is. rewrite Hq. exact Heq. }
    exists x. rewrite sample_network_usage_eq. fold nd. rewrite Hx.
    split; [reflexivity|].
    rewrite (network_section_run (S fuel) w x Hx).
    pose proof (advisory_block_rule model "Network" " MB/s" x fuel
                  {| sessions := sessions w; calls := calls w; clock := clock w + 1 |}) as H.
    destruct (advisory_block model "Network" " MB/s" x (S fuel) _) as [[r w2] t2].
    apply (threshold_rule_after_sleep "Network" x 1) in H.
    unfold trace_of in *; cbn [snd] in *. destruct H as [Ha Hnormal].
    split; [rewrite Ha; exact Hbytes|].
    rewrite Hnormal, Hbytes. lia.
  - intros Hsmall.
    destruct (int_truediv_exact dd Hsmall) as (x & q & Hx & Hq & Heq).
    assert (Hbytes : exceeds x THRESHOLD <-> (78643200 < dd)%Z).
    { apply exceeds_in_bytes. unfold float_is. rewrite Hq. exact Heq. }
    exists x. rewrite sample_disk_io_usage_eq. fold dd. rewrite Hx.
    split; [reflexivity|].
    rewrite (disk_section_run (S fuel) w x Hx).
    pose proof (advisory_block_rule model "Disk I/O" " MB/s" x fuel
                  {| sessions := sessions w; calls := calls w; clock := clock w + 1 |}) as H.
    destruct (advisory_block model "Disk I/O" " MB/s" x (S fuel) _) as [[r w2] t2].
    apply (threshold_rule_after_sleep "Disk I/O" x 1) in H.
    unfold trace_of in *; cbn [snd] in *. destruct H as [Ha Hnormal].
    split; [rewrite Ha; exact Hbytes|].
    rewrite Hnormal, Hbytes. lia.
Qed.

(** ** Answers on display *)

(** Under the hypotheses of C1 the dispatcher returns the answer, after [N]
    waits of 60, with events of its own only. *)
Lemma send_request_answer : forall (P text : string) (N fuel : nat) (w : world),
  (forall k, k < N -> signals_rate_limit (model (calls w + k) [] P) = true) ->
  model (calls w + N) [] P = Reply text ->
  N < fuel ->
  exists w' t,
    send_request_with_throttling model fuel P w = (Returned text, w', t) /\
    Forall dispatcher_event t /\
    sleeps t = repeat 60 N.
Proof.
  intros P text N fuel w Hlim Hok Hfuel.
  pose proof (send_request_emits model dispatcher_event P I I (fun _ => I) I fuel w) as Hd.
  destruct (retries_unfold model P N w Hlim) as (wN & tN & Hc & _ & Hs & _ & Hrun).
  replace fuel with (N + S (fuel - S N)) in * by lia.
  rewrite Hrun, send_request_unfold, Hc, Hok in *.
  eexists; eexists. split; [reflexivity|]. split; [exact Hd|].
  rewrite sleeps_app, Hs. apply app_nil_r.
Qed.

Lemma advisory_block_shows_answer : forall (name unit_ text : string) (x : spec_float)
    (N fuel : nat) (w : world),
  exceeds x THRESHOLD ->
  (forall k, k < N ->
     signals_rate_limit (model (calls w + k) [] (advisory_prompt name (PyFloat x))) = true) ->
  model (calls w + N) [] (advisory_prompt name (PyFloat x)) = Reply text ->
  N < fuel ->
  shows_answer
    [EvSt StWrite (name ++ " Usage: " ++ format_2f x ++ unit_);
     EvSt StWarning (name ++ " usage is high! (" ++ format_2f x ++ unit_ ++ ")")]
    ("### AI-generated Solution for " ++ name ++ " Usage:") text N
    (advisory_block model name unit_ x fuel w).
Proof.
  intros name unit_ text x N fuel w Hx Hlim Hok Hfuel.
  apply float_gt_int_exceeds in Hx.
  destruct (send_request_answer _ text N fuel w Hlim Hok Hfuel) as (w' & t & Heq & Hd & Hs).
  unfold advisory_block, bind, get_ai_solution, st_write, st_warning, emit.
  rewrite Hx, Heq. split; [reflexivity|].
  exists t. split; [reflexivity|]. split; assumption.
Qed.

(** X10.  When a reading exceeds the threshold and the service answers the
    advisory prompt after [N] rate-limit signals, the section returns and
    shows, in this order: the figure, the warning, then (after the [N] waits)
    the header of the solution and the answer, verbatim, as the last thing it
    writes.  This holds of each of the four metric sections. *)
Theorem advisory_answer_is_displayed :
  forall (text : string) (N fuel : nat) (w : world) (x : spec_float),
    let w1 := {| sessions := sessions w; calls := calls w; clock := clock w + 1 |} in
    let answered := fun name =>
      (forall k, k < N ->
         signals_rate_limit
           (model (calls w + k) [] (advisory_prompt name (PyFloat x))) = true) /\
      model (calls w + N) [] (advisory_prompt name (PyFloat x)) = Reply text in
    N < fuel ->
    exceeds x THRESHOLD ->
    (cpu_percent psutil (clock w + 1) = x -> answered "CPU" ->
     shows_answer
       [EvSt StWrite ("CPU Usage: " ++ format_2f x ++ "%");
        EvSt StWarning ("CPU usage is high! (" ++ format_2f x ++ "%)")]
       "### AI-generated Solution for CPU Usage:" text N
       (cpu_section model psutil fuel w)) /\
    (virtual_memory_percent psutil (clock w) = x -> answered "Memory" ->
     shows_answer
       [EvSt StWrite ("Memory Usage: " ++ format_2f x ++ "%");
        EvSt StWarning ("Memory usage is high! (" ++ format_2f x ++ "%)")]
       "### AI-generated Solution for Memory Usage:" text N
       (memory_section model psutil fuel w)) /\
    (result_of (sample_network_usage psutil w) = Returned x -> answered "Network" ->
     shows_answer
       [EvSleep 1;
        EvSt StWrite ("Network Usage: " ++ format_2f x ++ " MB/s");
        EvSt StWarning ("Network usage is high! (" ++ format_2f x ++ " MB/s)")]
       "### AI-generated Solution for Network Usage:" text N
       (network_section model psutil fuel w)) /\
    (result_of (sample_disk_io_usage psutil w) = Returned x -> answered "Disk I/O" ->
     shows_answer
       [EvSleep 1;
        EvSt StWrite ("Disk I/O Usage: " ++ format_2f x ++ " MB/s");
        EvSt StWarning ("Disk I/O usage is high! (" ++ format_2f x ++ " MB/s)")]
       "### AI-generated Solution for Disk I/O Usage:" text N
       (disk_section model psutil fuel w)).
Proof.
  intros text N fuel w x w1 answered Hfuel Hx.
  split; [|split; [|split]].
  - intros <- [Hlim Hok]. rewrite cpu_section_run.
    apply (advisory_block_shows_answer "CPU" "%" text _ N fuel w1); assumption.
  - intros <- [Hlim Hok]. rewrite memory_section_run.
    apply (advisory_block_shows_answer "Memory" "%" text _ N fuel w); assumption.
  - intros Hsample [Hlim Hok].
    rewrite sample_network_usage_eq in Hsample. unfold result_of in Hsample.
    cbn [fst] in Hsample.
    destruct (int_truediv _ 1048576) as [y|] eqn:Hy; [|discriminate].
    injection Hsample as ->.
    rewrite (network_section_run fuel w x Hy). fold w1.
    destruct (advisory_block_shows_answer "Network" " MB/s" text x N fuel w1 Hx Hlim Hok Hfuel)
      as (Hres & t0 & Ht & Hd & Hs).
    destruct (advisory_block model "Network" " MB/s" x fuel w1) as [[r w2] t2].
    unfold result_of, trace_of in *; cbn [fst snd] in *. subst r t2.
    split; [reflexivity|]. exists t0. split; [reflexivity|]. split; assumption.
  - intros Hsample [Hlim Hok].
    rewrite sample_disk_io_usage_eq in Hsample. unfold result_of in Hsample.
    cbn [fst] in Hsample.
    destruct (int_truediv _ 1048576) as [y|] eqn:Hy; [|discriminate].
    injection Hsample as ->.
    rewrite (disk_section_run fuel w x Hy). fold w1.
    destruct (advisory_block_shows_answer "Disk I/O" " MB/s" text x N fuel w1 Hx Hlim Hok Hfuel)
      as (Hres & t0 & Ht & Hd & Hs).
    destruct (advisory_block model "Disk I/O" " MB/s" x fuel w1) as [[r w2] t2].
    unfold result_of, trace_of in *; cbn [fst snd] in *. subst r t2.
    split; [reflexivity|]. exists t0. split; [reflexivity|]. split; assumption.
Qed.

(** X11.  When the text box is not empty and the service answers the typed
    text after [N] rate-limit signals, the chat section returns and shows the
    rule, the heading and the field, then (after the [N] waits) the answer
    header and the answer, verbatim. *)
Theorem chat_answer_is_displayed :
  forall (typed text : string) (N fuel : nat) (w : world),
    typed <> "" ->
    (forall k, k < N -> signals_rate_limit (model (calls w + k) [] typed) = true) ->
    model (calls w + N) [] typed = Reply text ->
    N < fuel ->
    shows_answer
      [EvSt StWrite "---"; EvSt StSubheader "Ask the AI a question:";
       EvSt StTextInput "Type your question here:"]
      "### AI's Answer:" text N
      (chat_section model typed fuel w).
Proof.
  intros typed text N fuel w Htyped Hlim Hok Hfuel.
  destruct (send_request_answer typed text N fuel w Hlim Hok Hfuel)
    as (w' & t & Heq & Hd & Hs).
  unfold chat_section, bind, st_write, st_subheader, st_text_input, emit.
  replace (String.eqb typed "") with false
    by (symmetry; apply String.eqb_neq; exact Htyped).
  cbn [negb]. rewrite Heq. split; [reflexivity|].
  exists t. split; [reflexivity|]. split; assumption.
Qed.

End RenderFacts.

(* ================================================================== *)
(** * What a render sends *)

Section RenderSends.

Variable model : completion_service.
Variable psutil : metrics_source.
Variable typed : string.

Lemma due_wider : forall (since till since' till' : nat) (P : string),
  since' <= since -> till <= till' ->
  due psutil typed since till P -> due psutil typed since' till' P.
Proof.
  intros since till since' till' P Hs Ht [H|(name & x & t & Hin & Hr & Hx & HP)].
  - left. exact H.
  - right. exists name, x, t.
    split; [lia|]. split; [exact Hr|]. split; assumption.
Qed.

Lemma sends_only_due_wider : forall (since till since' till' : nat) (ev : event),
  since' <= since -> till <= till' ->
  sends_only_due psutil typed since till ev -> sends_only_due psutil typed since' till' ev.
Proof.
  intros since till since' till' ev Hs Ht. destruct ev; cbn; try tauto.
  intros [Hh Hd]. split; [exact Hh | exact (due_wider _ _ _ _ _ Hs Ht Hd)].
Qed.

Lemma sends_due_trans : forall (w w1 w2 : world) (t1 t2 : list event),
  sends_due psutil typed w w1 t1 -> sends_due psutil typed w1 w2 t2 ->
  sends_due psutil typed w w2 (t1 ++ t2).
Proof.
  intros w w1 w2 t1 t2 [C1 F1] [C2 F2]. split; [lia|].
  apply Forall_app. split.
  - eapply Forall_impl; [|exact F1]. intros ev. apply sends_only_due_wider; lia.
  - eapply Forall_impl; [|exact F2]. intros ev. apply sends_only_due_wider; lia.
Qed.

(** What is shown sends nothing. *)
Lemma emit_sends_due : forall (wd : widget) (text : string),
  keeps (sends_due psutil typed) (emit (EvSt wd text)).
Proof. intros wd text w. split; [apply le_n | repeat constructor]. Qed.

(** The dispatcher on a prompt that is due from now on. *)
Lemma send_request_sends_due : forall (fuel : nat) (P : string) (w : world) (since : nat),
  (forall till, clock w <= till -> due psutil typed since till P) ->
  let run := send_request_with_throttling model fuel P w in
  clock w <= clock (world_of run) /\
  Forall (sends_only_due psutil typed since (clock (world_of run))) (trace_of run).
Proof.
  intros fuel P w since Hdue run; subst run.
  pose proof (send_request_clock model fuel P w) as Hc.
  split; [exact Hc|].
  apply send_request_emits; try exact I.
  - split; [reflexivity | exact (Hdue _ Hc)].
  - intros line; exact I.
Qed.

(** The block of a metric, at a reading the host gave for it. *)
Lemma advisory_block_sends_due : forall (name unit_ : string) (x : spec_float)
    (fuel : nat) (w : world) (since t : nat),
  since <= t <= clock w ->
  host_reading psutil name t x ->
  let run := advisory_block model name unit_ x fuel w in
  clock w <= clock (world_of run) /\
  Forall (sends_only_due psutil typed since (clock (world_of run))) (trace_of run).
Proof.
  intros name unit_ x fuel w since t Ht Hr run; subst run.
  destruct (float_gt_int x THRESHOLD) eqn:G.
  - pose proof (proj1 (float_gt_int_exceeds _ _) G) as Hx.
    destruct (send_request_sends_due fuel (advisory_prompt name (PyFloat x)) w since)
      as [Hc Hd].
    { intros till Htill. right. exists name, x, t.
      split; [lia|]. split; [exact Hr|]. split; [exact Hx | reflexivity]. }
    unfold advisory_block, bind, get_ai_solution, st_write, st_warning, emit.
    rewrite G.
    destruct (send_request_with_throttling model fuel _ w) as [[[sol|e] w2] t2];
      unfold world_of, trace_of in *; cbn [fst snd] in *;
      (split; [exact Hc|]); repeat (constructor; [exact I|]).
    + apply Forall_app. split; [exact Hd | repeat constructor].
    + exact Hd.
  - rewrite advisory_block_below by exact G.
    unfold world_of, trace_of; cbn [fst snd]. split; [apply le_n | repeat constructor].
Qed.

Lemma cpu_section_sends_due : forall fuel : nat,
  keeps (sends_due psutil typed) (cpu_section model psutil fuel).
Proof.
  intros fuel w. rewrite cpu_section_run.
  destruct (advisory_block_sends_due "CPU" "%" (cpu_percent psutil (clock w + 1)) fuel
              {| sessions := sessions w; calls := calls w; clock := clock w + 1 |}
              (clock w) (clock w + 1)) as [Hc Hd].
  - cbn [clock]. lia.
  - left. split; reflexivity.
  - cbn [clock] in Hc. split; [lia | exact Hd].
Qed.

Lemma memory_section_sends_due : forall fuel : nat,
  keeps (sends_due psutil typed) (memory_section model psutil fuel).
Proof.
  intros fuel w. rewrite memory_section_run.
  apply (advisory_block_sends_due "Memory" "%" _ fuel w (clock w) (clock w)).
  - lia.
  - right; left. split; reflexivity.
Qed.

Lemma network_section_sends_due : forall fuel : nat,
  keeps (sends_due psutil typed) (network_section model psutil fuel).
Proof.
  intros fuel w. rewrite network_section_block. unfold bind.
  rewrite sample_network_usage_eq.
  destruct (int_truediv _ 1048576) as [x|] eqn:Hx.
  - destruct (advisory_block_sends_due "Network" " MB/s" x fuel
                {| sessions := sessions w; calls := calls w; clock := clock w + 1 |}
                (clock w) (clock w)) as [Hc Hd].
    + cbn [clock]. lia.
    + right; right; left. split; [reflexivity | exact Hx].
    + destruct (advisory_block model "Network" " MB/s" x fuel _) as [[r w2] t2].
      unfold world_of, trace_of in *; cbn [fst snd clock] in *.
      split; [cbn [clock] in *; lia | constructor; [exact I | exact Hd]].
  - unfold world_of, trace_of; cbn [fst snd].
    split; [cbn [clock]; lia | repeat constructor].
Qed.

Lemma disk_section_sends_due : forall fuel : nat,
  keeps (sends_due psutil typed) (disk_section model psutil fuel).
Proof.
  intros fuel w. rewrite disk_section_block. unfold bind.
  rewrite sample_disk_io_usage_eq.
  destruct (int_truediv _ 1048576) as [x|] eqn:Hx.
  - destruct (advisory_block_sends_due "Disk I/O" " MB/s" x fuel
                {| sessions := sessions w; calls := calls w; clock := clock w + 1 |}
                (clock w) (clock w)) as [Hc Hd].
    + cbn [clock]. lia.
    + right; right; right. split; [reflexivity | exact Hx].
    + destruct (advisory_block model "Disk I/O" " MB/s" x fuel _) as [[r w2] t2].
      unfold world_of, trace_of in *; cbn [fst snd clock] in *.
      split; [cbn [clock] in *; lia | constructor; [exact I | exact Hd]].
  - unfold world_of, trace_of; cbn [fst snd].
    split; [cbn [clock]; lia | repeat constructor].
Qed.

Lemma chat_section_sends_due : forall fuel : nat,
  keeps (sends_due psutil typed) (chat_section model typed fuel).
Proof.
  intros fuel w.
  unfold chat_section, bind, st_write, st_subheader, st_text_input, emit.
  destruct (String.eqb typed "") eqn:E; cbn [negb].
  - split; [apply le_n | repeat constructor].
  - apply String.eqb_neq in E.
    destruct (send_request_sends_due fuel typed w (clock w)) as [Hc Hd].
    { intros till _. left. split; [exact E | reflexivity]. }
    destruct (send_request_with_throttling model fuel typed w) as [[[response|e] w2] t2];
      unfold world_of, trace_of in *; cbn [fst snd] in *;
      (split; [exact Hc|]); repeat (constructor; [exact I|]).
    + apply Forall_app. split; [exact Hd | repeat constructor].
    + exact Hd.
Qed.

(** Every request of a render was due in the time of the render. *)
Lemma page_sends_due : forall fuel : nat,
  keeps (sends_due psutil typed) (page model psutil typed fuel).
Proof.
  intros fuel. unfold page, st_title, st_write, st_markdown.
  repeat first
    [ apply cpu_section_sends_due
    | apply memory_section_sends_due
    | apply network_section_sends_due
    | apply disk_section_sends_due
    | apply chat_section_sends_due
    | apply emit_sends_due
    | apply keeps_bind; [exact sends_due_trans | | intros ?] ].
Qed.

(** X12.  A render sends the completion service nothing but what is due:
    every request it makes, retries included, is on an empty history and
    carries either the typed text (the box being not empty) or the advisory
    prompt of a metric for a reading that the host gave for that metric during
    the render and that is above the threshold: what [psutil] reported for the
    CPU or the memory, or what its network or disk counters, one time unit
    apart, come to.  No reading at or below the threshold, and no figure the
    host did not give, is ever sent. *)
Theorem render_sends_only_what_is_due :
  forall (fuel : nat) (w : world) (h : history) (P : string),
    let run := page model psutil typed fuel w in
    In (h, P) (requests (trace_of run)) ->
    h = [] /\ due psutil typed (clock w) (clock (world_of run)) P.
Proof.
  intros fuel w h P run Hin; subst run.
  apply in_requests in Hin.
  destruct (page_sends_due fuel w) as [_ Hall].
  rewrite Forall_forall in Hall.
  exact (Hall _ Hin).
Qed.

End RenderSends.

(* ================================================================== *)
(** * More statements at concrete inputs *)

(** Two quota failures, then an authentication failure. *)
Lemma rate_limited_then_other_failure_witness :
  let run := send_request_with_throttling
               (stub_failing_then_failing 2 quota_failure auth_failure) 4 "hi"
               initial_world in
  result_of run = Raised auth_failure /\
  requests (trace_of run) = [([], "hi"); ([], "hi"); ([], "hi")] /\
  sleeps (trace_of run) = [60; 60].
Proof.
  apply (rate_limited_then_other_failure
           (stub_failing_then_failing 2 quota_failure auth_failure)
           "hi" auth_failure 2 4 initial_world).
  - intros k Hk. destruct k as [|[|k]]; [reflexivity | reflexivity | lia].
  - reflexivity.
  - reflexivity.
  - lia.
Defined.



(** A quiet host, an empty text box, and a service that would only fail. *)
Lemma quiet_render_contacts_nobody_witness :
  page (stub_failing auth_failure) (steady_host float_75 float_75 1048576 0) "" 1
    initial_world =
  (Returned tt, {| sessions := []; calls := 0; clock := 3 |},
   [EvSt StTitle "POC- System Metrics Monitoring";
    EvSt StWrite "CPU Usage: 75.00%";
    EvSt StSuccess "CPU usage is within normal limits.";
    EvSt StWrite "---";
    EvSt StWrite "Memory Usage: 75.00%";
    EvSt StSuccess "Memory usage is within normal limits.";
    EvSt StWrite "---";
    EvSleep 1;
    EvSt StWrite "Network Usage: 1.00 MB/s";
    EvSt StSuccess "Network usage is within normal limits.";
    EvSt StWrite "---";
    EvSleep 1;
    EvSt StWrite "Disk I/O Usage: 0.00 MB/s";
    EvSt StSuccess "Disk I/O usage is within normal limits.";
    EvSt StWrite "---";
    EvSt StSubheader "Ask the AI a question:";
    EvSt StTextInput "Type your question here:";
    EvSt StMarkdown page_style]).
Proof.
  apply (quiet_render_contacts_nobody (stub_failing auth_failure)
           (steady_host float_75 float_75 1048576 0) 1 initial_world
           float_1 (S754_zero false)).
  - apply float_gt_int_not_exceeds. reflexivity.
  - apply float_gt_int_not_exceeds. reflexivity.
  - reflexivity.
  - apply float_gt_int_not_exceeds. reflexivity.
  - reflexivity.
  - apply float_gt_int_not_exceeds. reflexivity.
Defined.

(** CPU at 90.0 and 100 MB/s on the network, a question in the box, and a
    service that answers: three requests, in this order. *)
Lemma render_with_answering_service_witness :
  let run := page stub_counting_history (steady_host float_90 float_75 104857600 0) "hi" 1
               initial_world in
  result_of run = Returned tt /\
  requests (trace_of run) =
    [([], "The CPU usage is 90.0%. Provide step-by-step recommendations on how to resolve high CPU usage.");
     ([], "The Network usage is 100.0%. Provide step-by-step recommendations on how to resolve high Network usage.");
     ([], "hi")] /\
  sleeps (trace_of run) = [1; 1] /\
  clock (world_of run) = 3.
Proof.
  apply (render_with_answering_service stub_counting_history
           (steady_host float_90 float_75 104857600 0) "hi" 0 initial_world
           float_100 (S754_zero false)).
  - intros k h p. eexists. reflexivity.
  - reflexivity.
  - reflexivity.
Defined.

(** A render that ends with the authentication failure of the CPU advisory. *)
Lemma render_never_raises_a_rate_limit_witness :
  str_in RATE_LIMIT_MARKER (exn_str auth_failure) = false.
Proof.
  apply (render_never_raises_a_rate_limit (stub_failing auth_failure)
           (steady_host float_90 float_75 0 0) "hello" 3 initial_world auth_failure).
  reflexivity.
Defined.

(** One byte more than 75 MB on the network, and a disk counter that went
    back by a megabyte. *)
Lemma throughput_threshold_in_bytes_witness :
  (exists x,
     result_of (sample_network_usage (steady_host float_75 float_75 78643201 (-1048576))
                  initial_world) = Returned x /\
     (advisory_requested "Network" x
        (trace_of (network_section stub_counting_history
                     (steady_host float_75 float_75 78643201 (-1048576)) 1 initial_world)) <->
      (78643200 < 78643201)%Z) /\
     (reports_normal "Network"
        (trace_of (network_section stub_counting_history
                     (steady_host float_75 float_75 78643201 (-1048576)) 1 initial_world)) <->
      (78643201 <= 78643200)%Z)) /\
  (exists x,
     result_of (sample_disk_io_usage (steady_host float_75 float_75 78643201 (-1048576))
                  initial_world) = Returned x /\
     (advisory_requested "Disk I/O" x
        (trace_of (disk_section stub_counting_history
                     (steady_host float_75 float_75 78643201 (-1048576)) 1 initial_world)) <->
      (78643200 < -1048576)%Z) /\
     (reports_normal "Disk I/O"
        (trace_of (disk_section stub_counting_history
                     (steady_host float_75 float_75 78643201 (-1048576)) 1 initial_world)) <->
      (-1048576 <= 78643200)%Z)).
Proof.
  pose proof (throughput_threshold_in_bytes stub_counting_history
                (steady_host float_75 float_75 78643201 (-1048576)) 0 initial_world)
    as [Hnet Hdisk].
  split.
  - apply Hnet. reflexivity.
  - apply Hdisk. reflexivity.
Defined.

(** One quota failure, then the advice: shown after one wait, in each of the
    four sections. *)
Lemma advisory_answer_is_displayed_witness :
  shows_answer
    [EvSt StWrite "CPU Usage: 90.00%"; EvSt StWarning "CPU usage is high! (90.00%)"]
    "### AI-generated Solution for CPU Usage:" "advice" 1
    (cpu_section (stub_failing_then_ok 1 quota_failure "advice")
       (steady_host float_90 float_90 104857600 104857600) 2 initial_world) /\
  shows_answer
    [EvSt StWrite "Memory Usage: 90.00%"; EvSt StWarning "Memory usage is high! (90.00%)"]
    "### AI-generated Solution for Memory Usage:" "advice" 1
    (memory_section (stub_failing_then_ok 1 quota_failure "advice")
       (steady_host float_90 float_90 104857600 104857600) 2 initial_world) /\
  shows_answer
    [EvSleep 1; EvSt StWrite "Network Usage: 100.00 MB/s";
     EvSt StWarning "Network usage is high! (100.00 MB/s)"]
    "### AI-generated Solution for Network Usage:" "advice" 1
    (network_section (stub_failing_then_ok 1 quota_failure "advice")
       (steady_host float_90 float_90 104857600 104857600) 2 initial_world) /\
  shows_answer
    [EvSleep 1; EvSt StWrite "Disk I/O Usage: 100.00 MB/s";
     EvSt StWarning "Disk I/O usage is high! (100.00 MB/s)"]
    "### AI-generated Solution for Disk I/O Usage:" "advice" 1
    (disk_section (stub_failing_then_ok 1 quota_failure "advice")
       (steady_host float_90 float_90 104857600 104857600) 2 initial_world).
Proof.
  assert (Hfuel : 1 < 2) by lia.
  assert (H90 : exceeds float_90 THRESHOLD) by (apply float_gt_int_exceeds; reflexivity).
  assert (H100 : exceeds float_100 THRESHOLD) by (apply float_gt_int_exceeds; reflexivity).
  assert (Hans : forall name x,
            (forall k, k < 1 ->
               signals_rate_limit
                 (stub_failing_then_ok 1 quota_failure "advice"
                    (calls initial_world + k) [] (advisory_prompt name (PyFloat x))) = true) /\
            stub_failing_then_ok 1 quota_failure "advice"
              (calls initial_world + 1) [] (advisory_prompt name (PyFloat x)) = Reply "advice").
  { intros name x. split; [|reflexivity].
    intros k Hk. destruct k as [|k]; [reflexivity | lia]. }
  pose proof (advisory_answer_is_displayed (stub_failing_then_ok 1 quota_failure "advice")
                (steady_host float_90 float_90 104857600 104857600) "advice" 1 2
                initial_world float_90 Hfuel H90) as (Hcpu & Hmem & _ & _).
  pose proof (advisory_answer_is_displayed (stub_failing_then_ok 1 quota_failure "advice")
                (steady_host float_90 float_90 104857600 104857600) "advice" 1 2
                initial_world float_100 Hfuel H100) as (_ & _ & Hnet & Hdisk).
  split; [apply Hcpu; [reflexivity | apply Hans]|].
  split; [apply Hmem; [reflexivity | apply Hans]|].
  split; [apply Hnet; [reflexivity | apply Hans]|].
  apply Hdisk; [reflexivity | apply Hans].
Defined.

(** One quota failure, then the answer to the typed question. *)
Lemma chat_answer_is_displayed_witness :
  shows_answer
    [EvSt StWrite "---"; EvSt StSubheader "Ask the AI a question:";
     EvSt StTextInput "Type your question here:"]
    "### AI's Answer:" "advice" 1
    (chat_section (stub_failing_then_ok 1 quota_failure "advice") "what?" 2 initial_world).
Proof.
  apply (chat_answer_is_displayed (stub_failing_then_ok 1 quota_failure "advice")
           "what?" "advice" 1 2 initial_world).
  - discriminate.
  - intros k Hk. destruct k as [|k]; [reflexivity | lia].
  - reflexivity.
  - lia.
Defined.

(** A render with the CPU at 90.0, 100 MB/s on the network and a question in
    the box: the two advisory prompts and the question are among its requests,
    and each is due. *)
Lemma render_sends_only_what_is_due_witness :
  let host := steady_host float_90 float_75 104857600 0 in
  (@nil turn = [] /\
   due host "hi" 0 3
     "The CPU usage is 90.0%. Provide step-by-step recommendations on how to resolve high CPU usage.") /\
  (@nil turn = [] /\
   due host "hi" 0 3
     "The Network usage is 100.0%. Provide step-by-step recommendations on how to resolve high Network usage.") /\
  (@nil turn = [] /\ due host "hi" 0 3 "hi").
Proof.
  intros host.
  pose proof (render_sends_only_what_is_due stub_counting_history host "hi" 1 initial_world)
    as Hdue.
  split; [|split].
  - apply (Hdue [] _). vm_compute. left. reflexivity.
  - apply (Hdue [] _). vm_compute. right. left. reflexivity.
  - apply (Hdue [] _). vm_compute. do 2 right. left. reflexivity.
Defined.

